(** * Cavium eNodeB device handler (magma/enodebd/devices/cavium.py)

    A shallow embedding of the Cavium device definition of enodebd: the
    TR-069 state map of [CaviumHandler], the two Cavium-only states that
    disable [AdminState], the parameter catalog [CaviumTrDataModel] and the
    configuration post-processor [CaviumTrConfigurationInitializer].

    Python dictionaries are finite maps ([gmap]); exceptions are an explicit
    result type; [logging] calls are kept as a list of emitted lines. *)

From stdpp Require Import base option list strings pretty countable gmap fin_maps.

Open Scope string_scope.

(** ** Python values, exceptions, results *)

(** The dynamically typed values that flow through the configuration
    ([Any] in the annotations): booleans, integers and strings. *)
Inductive pyval :=
  | VBool (b : bool)
  | VInt (z : Z)
  | VStr (s : string).

Global Instance pyval_eq_dec : EqDecision pyval.
Proof. solve_decision. Defined.

(** Python's [str()] on such a value, as used by ['%s'] and [str(admin_value)]. *)
Definition str (v : pyval) : string :=
  match v with
  | VBool true => "True"
  | VBool false => "False"
  | VInt z => pretty z
  | VStr s => s
  end.

(** The exceptions the modelled code can raise. [AttributeError] is what
    Python raises on [None.path]. *)
Inductive exn :=
  | Tr069Error (msg : string)
  | ConfigurationError (msg : string)
  | AttributeError (msg : string).

Global Instance exn_eq_dec : EqDecision exn.
Proof. solve_decision. Defined.

Inductive result (A : Type) :=
  | Ok (a : A)
  | Raise (e : exn).
Arguments Ok {A} a.
Arguments Raise {A} e.

Global Instance result_ret : MRet result := @Ok.

Global Instance result_bind : MBind result := λ A B k r,
  match r with
  | Ok a => k a
  | Raise e => Raise e
  end.

(** ** Parameter names and descriptors *)

(** Modelled from the spec: the [ParameterName] constants
    (data_models/data_model_parameters.py) are absent.  The spec describes a
    parameter key as an opaque, finite, enumerable identifier, keys of
    list-type attributes being parameterized by a 1-based index; the
    constructors below are the constants cavium.py refers to, and
    [PLMN_N i] stands for [ParameterName.PLMN_N % i]. *)
Inductive ParameterName :=
  | DEVICE | FAP_SERVICE
  | GPS_STATUS | GPS_LAT | GPS_LONG | SW_VERSION
  | DUPLEX_MODE_CAPABILITY | BAND_CAPABILITY
  | EARFCNDL | EARFCNUL | BAND | PCI | DL_BANDWIDTH | UL_BANDWIDTH
  | ADMIN_STATE | OP_STATE | RF_TX_STATUS
  | CELL_RESERVED | CELL_BARRED
  | MME_IP | MME_PORT | NUM_PLMNS | PLMN | TAC
  | IP_SEC_ENABLE | PERIODIC_INFORM_INTERVAL
  | PERF_MGMT_ENABLE | PERF_MGMT_UPLOAD_INTERVAL | PERF_MGMT_UPLOAD_URL
  | PLMN_N (i : nat)
  | PLMN_N_CELL_RESERVED (i : nat)
  | PLMN_N_ENABLE (i : nat)
  | PLMN_N_PRIMARY (i : nat)
  | PLMN_N_PLMNID (i : nat).

Global Instance ParameterName_eq_dec : EqDecision ParameterName.
Proof. solve_decision. Defined.

Definition ParameterName_code (k : ParameterName) : nat * nat :=
  match k with
  | DEVICE => (0, 0) | FAP_SERVICE => (1, 0)
  | GPS_STATUS => (2, 0) | GPS_LAT => (3, 0) | GPS_LONG => (4, 0)
  | SW_VERSION => (5, 0)
  | DUPLEX_MODE_CAPABILITY => (6, 0) | BAND_CAPABILITY => (7, 0)
  | EARFCNDL => (8, 0) | EARFCNUL => (9, 0) | BAND => (10, 0) | PCI => (11, 0)
  | DL_BANDWIDTH => (12, 0) | UL_BANDWIDTH => (13, 0)
  | ADMIN_STATE => (14, 0) | OP_STATE => (15, 0) | RF_TX_STATUS => (16, 0)
  | CELL_RESERVED => (17, 0) | CELL_BARRED => (18, 0)
  | MME_IP => (19, 0) | MME_PORT => (20, 0) | NUM_PLMNS => (21, 0)
  | PLMN => (22, 0) | TAC => (23, 0)
  | IP_SEC_ENABLE => (24, 0) | PERIODIC_INFORM_INTERVAL => (25, 0)
  | PERF_MGMT_ENABLE => (26, 0) | PERF_MGMT_UPLOAD_INTERVAL => (27, 0)
  | PERF_MGMT_UPLOAD_URL => (28, 0)
  | PLMN_N i => (29, i)
  | PLMN_N_CELL_RESERVED i => (30, i)
  | PLMN_N_ENABLE i => (31, i)
  | PLMN_N_PRIMARY i => (32, i)
  | PLMN_N_PLMNID i => (33, i)
  end.

Definition ParameterName_of_code (c : nat * nat) : ParameterName :=
  match c with
  | (0, _) => DEVICE | (1, _) => FAP_SERVICE
  | (2, _) => GPS_STATUS | (3, _) => GPS_LAT | (4, _) => GPS_LONG
  | (5, _) => SW_VERSION
  | (6, _) => DUPLEX_MODE_CAPABILITY | (7, _) => BAND_CAPABILITY
  | (8, _) => EARFCNDL | (9, _) => EARFCNUL | (10, _) => BAND | (11, _) => PCI
  | (12, _) => DL_BANDWIDTH | (13, _) => UL_BANDWIDTH
  | (14, _) => ADMIN_STATE | (15, _) => OP_STATE | (16, _) => RF_TX_STATUS
  | (17, _) => CELL_RESERVED | (18, _) => CELL_BARRED
  | (19, _) => MME_IP | (20, _) => MME_PORT | (21, _) => NUM_PLMNS
  | (22, _) => PLMN | (23, _) => TAC
  | (24, _) => IP_SEC_ENABLE | (25, _) => PERIODIC_INFORM_INTERVAL
  | (26, _) => PERF_MGMT_ENABLE | (27, _) => PERF_MGMT_UPLOAD_INTERVAL
  | (28, _) => PERF_MGMT_UPLOAD_URL
  | (29, i) => PLMN_N i
  | (30, i) => PLMN_N_CELL_RESERVED i
  | (31, i) => PLMN_N_ENABLE i
  | (32, i) => PLMN_N_PRIMARY i
  | (_, i) => PLMN_N_PLMNID i
  end.

Global Instance ParameterName_countable : Countable ParameterName :=
  inj_countable' ParameterName_code ParameterName_of_code
    ltac:(by intros []).

(** [TrParameterType]: every member is used by the Cavium catalog. *)
Inductive TrParameterType := STRING | INT | UNSIGNED_INT | BOOLEAN | OBJECT.

Global Instance TrParameterType_eq_dec : EqDecision TrParameterType.
Proof. solve_decision. Defined.

(** Modelled from the spec: the [TrParam] tuple declaration
    (data_models/data_model.py) is absent.  The spec gives a descriptor as
    the immutable tuple (path, isList, wireType, isObject); the fields are
    in the positional order of the [TrParam(...)] calls of cavium.py.  The
    second position is the flag the spec reads as readable/listable. *)
Record TrParam := mkTrParam {
  path : string;
  isList : bool;
  wireType : TrParameterType;
  isObject : bool;
}.

Global Instance TrParam_eq_dec : EqDecision TrParam.
Proof. solve_decision. Defined.

(** ** Python dictionary and range helpers *)

(** [d[k] = v] for each item in turn: a later item overwrites an earlier one
    with the same key, as in a dict display. *)
Definition dict_of_items `{Countable K} {V} (items : list (K * V)) : gmap K V :=
  foldl (λ d kv, <[kv.1 := kv.2]> d) ∅ items.

(** [range(a, b)] *)
Definition range (a b : nat) : list nat := seq a (b - a).

(** ['...%d...' % i] for a non-negative [i] *)
Definition fmt_d (pre : string) (i : nat) (post : string) : string :=
  pre +:+ pretty i +:+ post.

(** ** CaviumTrDataModel *)

Definition DEVICE_PATH : string := "Device.".
Definition FAPSERVICE_PATH : string := DEVICE_PATH +:+ "Services.FAPService.1.".

(** The dict display assigned to [PARAMETERS] (cavium.py, lines 175-233). *)
Definition PARAMETERS_display : list (ParameterName * TrParam) := [
  (DEVICE, mkTrParam DEVICE_PATH true OBJECT false);
  (FAP_SERVICE, mkTrParam FAPSERVICE_PATH true OBJECT false);
  (GPS_STATUS, mkTrParam (DEVICE_PATH +:+ "FAP.GPS.ContinuousGPSStatus.GotFix") true BOOLEAN false);
  (GPS_LAT, mkTrParam (DEVICE_PATH +:+ "FAP.GPS.LockedLatitude") true INT false);
  (GPS_LONG, mkTrParam (DEVICE_PATH +:+ "FAP.GPS.LockedLongitude") true INT false);
  (SW_VERSION, mkTrParam (DEVICE_PATH +:+ "DeviceInfo.SoftwareVersion") true STRING false);
  (DUPLEX_MODE_CAPABILITY, mkTrParam (FAPSERVICE_PATH +:+ "Capabilities.LTE.DuplexMode") true STRING false);
  (BAND_CAPABILITY, mkTrParam (FAPSERVICE_PATH +:+ "Capabilities.LTE.BandsSupported") true UNSIGNED_INT false);
  (EARFCNDL, mkTrParam (FAPSERVICE_PATH +:+ "CellConfig.LTE.RAN.RF.EARFCNDL") true UNSIGNED_INT false);
  (EARFCNUL, mkTrParam (FAPSERVICE_PATH +:+ "CellConfig.LTE.RAN.RF.EARFCNUL") true UNSIGNED_INT false);
  (BAND, mkTrParam (FAPSERVICE_PATH +:+ "CellConfig.LTE.RAN.RF.FreqBandIndicator") true UNSIGNED_INT false);
  (PCI, mkTrParam (FAPSERVICE_PATH +:+ "CellConfig.LTE.RAN.RF.PhyCellID") true STRING false);
  (DL_BANDWIDTH, mkTrParam (FAPSERVICE_PATH +:+ "CellConfig.LTE.RAN.RF.DLBandwidth") true STRING false);
  (UL_BANDWIDTH, mkTrParam (FAPSERVICE_PATH +:+ "CellConfig.LTE.RAN.RF.ULBandwidth") true STRING false);
  (ADMIN_STATE, mkTrParam (FAPSERVICE_PATH +:+ "FAPControl.LTE.AdminState") false BOOLEAN false);
  (OP_STATE, mkTrParam (FAPSERVICE_PATH +:+ "FAPControl.LTE.OpState") true BOOLEAN false);
  (RF_TX_STATUS, mkTrParam (FAPSERVICE_PATH +:+ "FAPControl.LTE.RFTxStatus") true BOOLEAN false);
  (CELL_RESERVED, mkTrParam (FAPSERVICE_PATH +:+ "CellConfig.LTE.RAN.CellRestriction.CellReservedForOperatorUse") true BOOLEAN false);
  (CELL_BARRED, mkTrParam (FAPSERVICE_PATH +:+ "CellConfig.LTE.RAN.CellRestriction.CellBarred") true BOOLEAN false);
  (MME_IP, mkTrParam (FAPSERVICE_PATH +:+ "FAPControl.LTE.Gateway.S1SigLinkServerList") true STRING false);
  (MME_PORT, mkTrParam (FAPSERVICE_PATH +:+ "FAPControl.LTE.Gateway.S1SigLinkPort") true UNSIGNED_INT false);
  (NUM_PLMNS, mkTrParam (FAPSERVICE_PATH +:+ "CellConfig.LTE.EPC.PLMNListNumberOfEntries") true UNSIGNED_INT false);
  (PLMN, mkTrParam (FAPSERVICE_PATH +:+ "CellConfig.LTE.EPC.PLMNList.") true OBJECT false);
  (TAC, mkTrParam (FAPSERVICE_PATH +:+ "CellConfig.LTE.EPC.TAC") true UNSIGNED_INT false);
  (IP_SEC_ENABLE, mkTrParam (DEVICE_PATH +:+ "IPsec.Enable") false BOOLEAN false);
  (PERIODIC_INFORM_INTERVAL, mkTrParam (DEVICE_PATH +:+ "ManagementServer.PeriodicInformInterval") false UNSIGNED_INT false);
  (PERF_MGMT_ENABLE, mkTrParam (FAPSERVICE_PATH +:+ "PerfMgmt.Config.1.Enable") false BOOLEAN false);
  (PERF_MGMT_UPLOAD_INTERVAL, mkTrParam (FAPSERVICE_PATH +:+ "PerfMgmt.Config.1.PeriodicUploadInterval") false UNSIGNED_INT false);
  (PERF_MGMT_UPLOAD_URL, mkTrParam (FAPSERVICE_PATH +:+ "PerfMgmt.Config.1.URL") false STRING false)
].

Definition NUM_PLMNS_IN_CONFIG : nat := 6.

(** The five assignments of one iteration of the class-body loop
    (lines 237-247), in order. *)
Definition PLMN_assignments (i : nat) : list (ParameterName * TrParam) := [
  (PLMN_N i, mkTrParam (FAPSERVICE_PATH +:+ fmt_d "CellConfig.LTE.EPC.PLMNList." i ".") true OBJECT false);
  (PLMN_N_CELL_RESERVED i, mkTrParam (FAPSERVICE_PATH +:+ fmt_d "CellConfig.LTE.EPC.PLMNList." i ".CellReservedForOperatorUse") true BOOLEAN false);
  (PLMN_N_ENABLE i, mkTrParam (FAPSERVICE_PATH +:+ fmt_d "CellConfig.LTE.EPC.PLMNList." i ".Enable") true BOOLEAN false);
  (PLMN_N_PRIMARY i, mkTrParam (FAPSERVICE_PATH +:+ fmt_d "CellConfig.LTE.EPC.PLMNList." i ".IsPrimary") true BOOLEAN false);
  (PLMN_N_PLMNID i, mkTrParam (FAPSERVICE_PATH +:+ fmt_d "CellConfig.LTE.EPC.PLMNList." i ".PLMNID") true STRING false)
].

(** [PARAMETERS] after the class body has run: the display, then the loop
    [for i in range(1, NUM_PLMNS_IN_CONFIG + 1)]. *)
Definition PARAMETERS : gmap ParameterName TrParam :=
  foldl (λ d i, foldl (λ d kv, <[kv.1 := kv.2]> d) d (PLMN_assignments i))
        (dict_of_items PARAMETERS_display)
        (range 1 (NUM_PLMNS_IN_CONFIG + 1)).

(** [get_parameter]: [cls.PARAMETERS.get(param_name)] *)
Definition get_parameter (param_name : ParameterName) : option TrParam :=
  PARAMETERS !! param_name.

Definition get_num_plmns : nat := NUM_PLMNS_IN_CONFIG.

Definition get_load_parameters : list ParameterName := [DEVICE].

Definition get_numbered_param_names : gmap ParameterName (list ParameterName) :=
  foldl (λ names i,
           let params := [] in
           let params := (params ++ [PLMN_N_CELL_RESERVED i])%list in
           let params := (params ++ [PLMN_N_ENABLE i])%list in
           let params := (params ++ [PLMN_N_PRIMARY i])%list in
           let params := (params ++ [PLMN_N_PLMNID i])%list in
           <[PLMN_N i := params]> names)
        ∅
        (range 1 (NUM_PLMNS_IN_CONFIG + 1)).

(** Every assignment made to [PARAMETERS] while the class body runs, in
    execution order; used to state that none of them overwrote another. *)
Definition PARAMETERS_assignments : list (ParameterName * TrParam) :=
  (PARAMETERS_display ++ (range 1 (NUM_PLMNS_IN_CONFIG + 1) ≫= PLMN_assignments))%list.

(** Modelled from the spec: [DataModel.transform_for_enb] lives in the absent
    base class (data_models/data_model.py).  Per the spec, a key without a
    registered transform passes its value through unchanged, and a
    registered transform is applied to the value. *)
Definition transform_for_enb
    (enb_transforms : gmap ParameterName (pyval → pyval))
    (param_name : ParameterName) (magma_val : pyval) : pyval :=
  match enb_transforms !! param_name with
  | Some f => f magma_val
  | None => magma_val
  end.

(** What a state reaches through [self.acs.data_model]. *)
Record DataModel := mkDataModel {
  dm_get_parameter : ParameterName → option TrParam;
  dm_get_enb_transforms : gmap ParameterName (pyval → pyval);
}.

Section CaviumTrDataModel.
(** [transform_for_enb.bandwidth] is defined outside cavium.py; the data
    model is parameterized by it. *)
Variable bandwidth : pyval → pyval.

Definition TRANSFORMS_FOR_ENB : gmap ParameterName (pyval → pyval) :=
  dict_of_items [(DL_BANDWIDTH, bandwidth); (UL_BANDWIDTH, bandwidth)].

Definition _get_enb_transforms := TRANSFORMS_FOR_ENB.

Definition CaviumTrDataModel : DataModel :=
  {| dm_get_parameter := get_parameter;
     dm_get_enb_transforms := _get_enb_transforms |}.
End CaviumTrDataModel.

(** ** TR-069 messages *)

(** Modelled from the spec: the message classes ([magma.enodebd.tr069.models])
  are absent.  Inbound kinds and their fields follow the spec's list of
  consumed messages; [DummyInput] is the placeholder the states test for.
  Only the fields the Cavium states read are kept. *)
Record ParameterValuesFault := mkParameterValuesFault {
fault_ParameterName : string;
fault_FaultCode : Z;
fault_FaultString : string;
}.

Inductive message :=
| Fault (FaultCode : Z) (FaultString : string)
        (SetParameterValuesFault : option (list ParameterValuesFault))
| SetParameterValuesResponse (Status : Z)
| GetParameterValuesResponse
| RebootResponse
| Inform
| DummyInput.

(** Outbound [SetParameterValues] request, with the attributes [get_msg]
  assigns. *)
Record anySimpleType := mkAnySimpleType {
type : string;
Data : string;
}.

Record ParameterValueStruct := mkParameterValueStruct {
Name : string;
Value : anySimpleType;
}.

Record ParameterValueList := mkParameterValueList {
arrayType : string;
ParameterValueStructs : list ParameterValueStruct;
}.

Record SetParameterValues := mkSetParameterValues {
ParameterList : ParameterValueList;
}.

(** [AcsReadMsgResult(msg_handled, next_state)] and
  [AcsMsgAndTransition(msg, next_state)] *)
Record AcsReadMsgResult := mkAcsReadMsgResult {
msg_handled : bool;
next_state : option string;
}.

Record AcsMsgAndTransition := mkAcsMsgAndTransition {
msg : SetParameterValues;
msg_next_state : string;
}.

(** Lines written by [logging.error], in order. *)
Definition log := list string.

(** ** The Cavium-only states *)

Module CaviumDisableAdminEnableState.
Definition read_msg (message : message) : AcsReadMsgResult :=
  match message with
  | DummyInput => mkAcsReadMsgResult true None
  | _ => mkAcsReadMsgResult false None
  end.

(** [self.acs.data_model.get_parameter(param_name).path] raises
    [AttributeError] when the lookup gives [None]. *)
Definition get_msg (data_model : DataModel) (done_transition : string)
    : result AcsMsgAndTransition :=
  let param_name := ADMIN_STATE in
  admin_path ← match dm_get_parameter data_model param_name with
               | Some p => Ok (path p)
               | None => Raise (AttributeError "'NoneType' object has no attribute 'path'")
               end;
  let admin_value :=
    transform_for_enb (dm_get_enb_transforms data_model) param_name (VBool false) in
  let param_values : gmap string pyval := {[ admin_path := admin_value ]} in
  let name_value :=
    {| Name := admin_path;
       Value := {| type := "xsd:string"; Data := str admin_value |} |} in
  let request :=
    {| ParameterList :=
         {| arrayType := fmt_d "cwmp:ParameterValueStruct[" (size param_values) "]";
            ParameterValueStructs := [name_value] |} |} in
  Ok (mkAcsMsgAndTransition request done_transition).
End CaviumDisableAdminEnableState.

Module CaviumWaitDisableAdminEnableState.
Definition log_fault (fault : ParameterValuesFault) : string :=
  "SetParameterValuesFault Param: " +:+ fault_ParameterName fault
    +:+ ", Code: " +:+ pretty (fault_FaultCode fault)
    +:+ ", String: " +:+ fault_FaultString fault.

(** The [if]/[elif] chain of [read_msg]: [type(message) == models.Fault]
    first, then the [isinstance] test against
    [SetParameterValuesResponse], then the status test. *)
Definition read_msg (done_transition : string) (message : message)
    : log * result AcsReadMsgResult :=
  match message with
  | Fault _ FaultString SetParameterValuesFault =>
      ("Received Fault in response to SetParameterValues"
         :: match SetParameterValuesFault with
            | Some faults => log_fault <$> faults
            | None => []
            end,
       Raise (Tr069Error ("Received Fault in response to SetParameterValues "
                            +:+ "(faultstring = " +:+ FaultString +:+ ")")))
  | SetParameterValuesResponse Status =>
      if decide (Status ≠ 0%Z)
      then ([], Raise (Tr069Error ("Received SetParameterValuesResponse with "
                                     +:+ "Status=" +:+ pretty Status)))
      else ([], Ok (mkAcsReadMsgResult true (Some done_transition)))
  | _ => ([], Ok (mkAcsReadMsgResult false None))
  end.
End CaviumWaitDisableAdminEnableState.

(** ** CaviumHandler *)

(** The state classes wired by [_init_state_map], each with the successor
    names it is constructed with (the [acs] back-reference is the handler
    itself and is left implicit). *)
Inductive EnodebAcsState :=
  | DisconnectedState (when_done : string)
  | SendGetTransientParametersState (when_done : string)
  | WaitGetTransientParametersState
      (when_get when_get_obj_params when_delete when_add when_set when_skip : string)
  | GetParametersState (when_done : string)
  | WaitGetParametersState (when_done : string)
  | CaviumDisableAdminEnableState (when_done : string)
  | CaviumWaitDisableAdminEnableState (when_done : string)
  | DeleteObjectsState (when_add when_skip : string)
  | AddObjectsState (when_done : string)
  | SetParameterValuesNotAdminState (when_done : string)
  | WaitSetParameterValuesState (when_done : string)
  | SendRebootState (when_done : string)
  | WaitRebootResponseState (when_done : string)
  | WaitInformMRebootState (when_done when_timeout : string)
  | UnexpectedInformState (when_done : string)
  | ErrorState.

Global Instance EnodebAcsState_eq_dec : EqDecision EnodebAcsState.
Proof. solve_decision. Defined.

(** The successor state names a state instance was given. *)
Definition successors (s : EnodebAcsState) : list string :=
  match s with
  | DisconnectedState d | SendGetTransientParametersState d
  | GetParametersState d | WaitGetParametersState d
  | CaviumDisableAdminEnableState d | CaviumWaitDisableAdminEnableState d
  | AddObjectsState d | SetParameterValuesNotAdminState d
  | WaitSetParameterValuesState d | SendRebootState d
  | WaitRebootResponseState d | UnexpectedInformState d => [d]
  | WaitGetTransientParametersState g o d a s k => [g; o; d; a; s; k]
  | DeleteObjectsState a k => [a; k]
  | WaitInformMRebootState d t => [d; t]
  | ErrorState => []
  end.

(** The dict display of [_init_state_map] (lines 43-63), in source order. *)
Definition state_map_display : list (string * EnodebAcsState) := [
  ("disconnected", DisconnectedState "get_transient_params");
  ("get_transient_params", SendGetTransientParametersState "wait_get_transient_params");
  ("wait_get_transient_params",
     WaitGetTransientParametersState "get_params" "get_obj_params" "delete_objs"
                                     "add_objs" "set_params" "get_transient_params");
  ("get_params", GetParametersState "wait_get_parameters");
  ("wait_get_params", WaitGetParametersState "disable_admin");
  ("disable_admin", CaviumDisableAdminEnableState "wait_disable_admin");
  ("wait_disable_admin", CaviumWaitDisableAdminEnableState "delete_objs");
  ("delete_objs", DeleteObjectsState "add_objs" "set_params");
  ("add_objs", AddObjectsState "set_params");
  ("set_params", SetParameterValuesNotAdminState "wait_set_params");
  ("wait_set_params", WaitSetParameterValuesState "get_transient_params");
  ("reboot", SendRebootState "wait_reboot");
  ("wait_reboot", WaitRebootResponseState "wait_post_reboot_inform");
  ("wait_post_reboot_inform", WaitInformMRebootState "wait_reboot_delay" "disconnected");
  ("unexpected_inform", UnexpectedInformState "wait_empty");
  ("unexpected_fault", ErrorState)
].

(** The handler object: the attributes the modelled methods touch. *)
Record CaviumHandler := mkCaviumHandler {
  _state_map : gmap string EnodebAcsState;
  state : EnodebAcsState;
}.

Definition _init_state_map (self : CaviumHandler) : CaviumHandler :=
  {| _state_map := dict_of_items state_map_display; state := state self |}.

Definition state_map (self : CaviumHandler) : gmap string EnodebAcsState :=
  _state_map self.

Definition is_enodeb_connected (self : CaviumHandler) : bool :=
  match state self with
  | DisconnectedState _ => false
  | _ => true
  end.

(** Modelled from the spec: [transition] is a method of the absent base
    class [BasicEnodebAcsStateMachine].  Per the spec, a transition sets the
    current state to the one named [next_state] and fails with a
    configuration error when that name is not in the transition table. *)
Definition transition (self : CaviumHandler) (next_state : string)
    : result CaviumHandler :=
  match state_map self !! next_state with
  | Some s => Ok {| _state_map := _state_map self; state := s |}
  | None => Raise (ConfigurationError ("unknown state " +:+ next_state))
  end.

Definition reboot_asap (self : CaviumHandler) : result CaviumHandler :=
  transition self "reboot".

(** The spec's vocabulary for the manual-reboot rule: the states of the
    reboot sequence, and the states in which a reconciliation (the
    admin-disable, delete, add and set steps that apply a diff) is under
    way. *)
Definition in_reboot_sequence (s : EnodebAcsState) : bool :=
  match s with
  | SendRebootState _ | WaitRebootResponseState _ | WaitInformMRebootState _ _ => true
  | _ => false
  end.

Definition reconciliation_in_progress (s : EnodebAcsState) : bool :=
  match s with
  | CaviumDisableAdminEnableState _ | CaviumWaitDisableAdminEnableState _
  | DeleteObjectsState _ _ | AddObjectsState _
  | SetParameterValuesNotAdminState _ | WaitSetParameterValuesState _ => true
  | _ => false
  end.

(** ** CaviumTrConfigurationInitializer *)

(** Modelled from the spec: [EnodebConfiguration]
    (device_config/enodeb_configuration.py) is absent.  Per the spec a
    configuration snapshot is a mapping from parameter key to value, and
    [set_parameter] stores the value under the key. *)
Definition EnodebConfiguration := gmap ParameterName pyval.

Definition set_parameter (cfg : EnodebConfiguration)
    (param_name : ParameterName) (value : pyval) : EnodebConfiguration :=
  <[param_name := value]> cfg.

(** [postprocess] mutates [desired_cfg] in place and returns [None]; the
    embedding returns the configuration after the call. *)
Definition postprocess (desired_cfg : EnodebConfiguration) : EnodebConfiguration :=
  let desired_cfg := set_parameter desired_cfg CELL_BARRED (VBool true) in
  let desired_cfg := set_parameter desired_cfg ADMIN_STATE (VBool true) in
  desired_cfg.

(** ** The rest of CaviumHandler and CaviumTrDataModel *)

(** The state names the handler's properties return. *)
Definition disconnected_state_name : string := "disconnected".
Definition unexpected_inform_state_name : string := "unexpected_inform".
Definition unexpected_fault_state_name : string := "unexpected_fault".

(** One edge of the wiring: [a] is a key of the state map, its state was
    given [b] as a successor name, and [b] is a key too (a transition to a
    name that is not a key cannot be taken). *)
Definition state_map_step (sm : gmap string EnodebAcsState) (a b : string) : Prop :=
  ∃ s, sm !! a = Some s ∧ b ∈ successors s ∧ is_Some (sm !! b).

(** The keys of a dict built by the given assignments, in the order
    [keys()] yields them: each key at the place of its first assignment. *)
Definition dict_keys_of_items `{EqDecision K} {V} (items : list (K * V)) : list K :=
  foldl (λ ks kv, if decide (kv.1 ∈ ks) then ks else (ks ++ [kv.1])%list) [] items.

(** [cls.PARAMETERS.keys()] *)
Definition PARAMETERS_keys : list ParameterName :=
  dict_keys_of_items PARAMETERS_assignments.

(** [s.startswith(pre)] *)
Definition startswith (s pre : string) : bool := String.prefix pre s.

Section get_parameter_names.
(** [str(x)] of a parameter name: the text of the [ParameterName] constants
    is defined outside cavium.py, the function is parameterized by it. *)
Variable ParameterName_str : ParameterName → string.

Definition get_parameter_names : list ParameterName :=
  let excluded_params := [ParameterName_str DEVICE; ParameterName_str FAP_SERVICE] in
  let names :=
    filter (λ x, negb (startswith (ParameterName_str x) "PLMN") = true
                 ∧ ParameterName_str x ∉ excluded_params)
           PARAMETERS_keys in
  names.
End get_parameter_names.

Section TRANSFORMS_FOR_MAGMA.
(** [transform_for_magma.gps_tr181] is defined outside cavium.py. *)
Variable gps_tr181 : pyval → pyval.

Definition TRANSFORMS_FOR_MAGMA : gmap ParameterName (pyval → pyval) :=
  dict_of_items [(GPS_LAT, gps_tr181); (GPS_LONG, gps_tr181)].

Definition _get_magma_transforms := TRANSFORMS_FOR_MAGMA.
End TRANSFORMS_FOR_MAGMA.

(** The characters ['%d'] produces for a non-negative integer. *)
Definition is_digit (c : Ascii.ascii) : bool :=
  bool_decide (String c "" ∈ ["0"; "1"; "2"; "3"; "4"; "5"; "6"; "7"; "8"; "9"]).

Fixpoint all_digits (s : string) : bool :=
  match s with
  | EmptyString => true
  | String c s => is_digit c && all_digits s
  end.

(** [s.endswith('.')] *)
Fixpoint ends_with_dot (s : string) : bool :=
  match s with
  | EmptyString => false
  | String c EmptyString => bool_decide (String c "" = ".")
  | String _ s => ends_with_dot s
  end.

(** ** Sanity checks of the embedding on concrete inputs *)

Example PARAMETERS_size : size PARAMETERS = 59.
Proof. vm_compute. reflexivity. Qed.

Example get_parameter_PLMN_3 :
  get_parameter (PLMN_N_ENABLE 3) =
  Some (mkTrParam "Device.Services.FAPService.1.CellConfig.LTE.EPC.PLMNList.3.Enable" true BOOLEAN false).
Proof. vm_compute. reflexivity. Qed.

Example read_msg_status_7 :
  CaviumWaitDisableAdminEnableState.read_msg "delete_objs" (SetParameterValuesResponse 7) =
  ([], Raise (Tr069Error "Received SetParameterValuesResponse with Status=7")).
Proof. vm_compute. reflexivity. Qed.

Example read_msg_fault_log :
  CaviumWaitDisableAdminEnableState.read_msg "delete_objs"
    (Fault 9003 "Invalid arguments"
       (Some [mkParameterValuesFault "Device.X" 9007 "Invalid parameter value"])) =
  (["Received Fault in response to SetParameterValues";
    "SetParameterValuesFault Param: Device.X, Code: 9007, String: Invalid parameter value"],
   Raise (Tr069Error "Received Fault in response to SetParameterValues (faultstring = Invalid arguments)")).
Proof. vm_compute. reflexivity. Qed.

Example state_map_size :
  size (state_map (_init_state_map (mkCaviumHandler ∅ ErrorState))) = 16.
Proof. vm_compute. reflexivity. Qed.

(** * Properties *)

(** ** Shared lemmas *)

Lemma dict_of_items_snoc `{Countable K} {V} (items : list (K * V)) k v :
  dict_of_items (items ++ [(k, v)]) = <[k := v]> (dict_of_items items).
Proof. unfold dict_of_items. by rewrite foldl_app. Qed.

Lemma dict_of_items_list_to_map `{Countable K} {V} (items : list (K * V)) :
  dict_of_items items = list_to_map (reverse items).
Proof.
  induction items as [|[k v] items IH] using rev_ind; [reflexivity|].
  rewrite dict_of_items_snoc, reverse_snoc, IH. reflexivity.
Qed.

Lemma dict_of_items_lookup `{Countable K} {V} (items : list (K * V)) k v :
  NoDup (items.*1) →
  dict_of_items items !! k = Some v ↔ (k, v) ∈ items.
Proof.
  intros Hnd. rewrite dict_of_items_list_to_map, <- elem_of_list_to_map.
  - apply elem_of_reverse.
  - by rewrite fmap_reverse, reverse_Permutation.
Qed.

Lemma foldl_setitem_bind `{Countable K} {V} {A} (g : A → list (K * V))
    (l : list A) (d : gmap K V) :
  foldl (λ d i, foldl (λ d kv, <[kv.1 := kv.2]> d) d (g i)) d l
  = foldl (λ d kv, <[kv.1 := kv.2]> d) d (l ≫= g).
Proof.
  revert d. induction l as [|a l IH]; intros d; simpl; [reflexivity|].
  by rewrite foldl_app, IH.
Qed.

Lemma string_app_inj_r (s1 s2 : string) (c : Ascii.ascii) :
  s1 +:+ String c "" = s2 +:+ String c "" → s1 = s2.
Proof.
  revert s2. induction s1 as [|a s1 IH]; intros [|b s2]; simpl; intros Heq.
  - reflexivity.
  - injection Heq as _ Heq. destruct s2; discriminate.
  - injection Heq as _ Heq. destruct s1; discriminate.
  - injection Heq as -> Heq. f_equal. by apply IH.
Qed.

Lemma NoDup_fmap_elem_inj {A B} (f : A → B) (l : list A) x y :
  NoDup (f <$> l) → x ∈ l → y ∈ l → f x = f y → x = y.
Proof.
  induction l as [|a l IH]; simpl; intros Hnd Hx Hy Hf.
  - by apply elem_of_nil in Hx.
  - apply NoDup_cons in Hnd as [Hnotin Hnd].
    apply elem_of_cons in Hx as [->|Hx]; apply elem_of_cons in Hy as [->|Hy].
    + reflexivity.
    + exfalso. apply Hnotin. rewrite Hf. by apply list_elem_of_fmap_2.
    + exfalso. apply Hnotin. rewrite <- Hf. by apply list_elem_of_fmap_2.
    + by apply IH.
Qed.

(** ** The state map *)

Lemma state_map_init (self : CaviumHandler) :
  state_map (_init_state_map self) = dict_of_items state_map_display.
Proof. reflexivity. Qed.

(** Which targets of the state map resolve: every successor name given to a
    state of the map is a key of the map, except four. *)
Lemma state_map_targets (self : CaviumHandler) (name target : string) (s : EnodebAcsState) :
  state_map (_init_state_map self) !! name = Some s →
  target ∈ successors s →
  is_Some (state_map (_init_state_map self) !! target)
  ∨ (name, target) ∈ [("wait_get_transient_params", "get_obj_params");
                       ("get_params", "wait_get_parameters");
                       ("wait_post_reboot_inform", "wait_reboot_delay");
                       ("unexpected_inform", "wait_empty")].
Proof.
  rewrite state_map_init.
  set (sm := dict_of_items state_map_display).
  set (dangling := [_; _; _; _]).
  assert (Hall : Forall (λ entry, Forall (λ t, is_Some (sm !! t) ∨ (entry.1, t) ∈ dangling)
                                         (successors entry.2))
                        state_map_display) by compute_done.
  intros Hs Ht. apply dict_of_items_lookup in Hs; [|compute_done].
  rewrite Forall_forall in Hall. specialize (Hall _ Hs). simpl in Hall.
  rewrite Forall_forall in Hall. by apply Hall.
Qed.

(** C1 (fails on the code): not every successor name wired by
    [_init_state_map] is a key of the state map.  ['get_params'] is built
    with [when_done='wait_get_parameters'] while the key of the wait state is
    ['wait_get_params']; ['get_obj_params'], ['wait_reboot_delay'] and
    ['wait_empty'] are named as successors and never defined. *)
Theorem state_map_dangling_targets (self : CaviumHandler) :
  let sm := state_map (_init_state_map self) in
  (sm !! "get_params" = Some (GetParametersState "wait_get_parameters")
   ∧ sm !! "wait_get_parameters" = None
   ∧ sm !! "wait_get_params" = Some (WaitGetParametersState "disable_admin"))
  ∧ (sm !! "wait_get_transient_params" =
       Some (WaitGetTransientParametersState "get_params" "get_obj_params" "delete_objs"
               "add_objs" "set_params" "get_transient_params")
     ∧ sm !! "get_obj_params" = None)
  ∧ (sm !! "wait_post_reboot_inform" =
       Some (WaitInformMRebootState "wait_reboot_delay" "disconnected")
     ∧ sm !! "wait_reboot_delay" = None)
  ∧ (sm !! "unexpected_inform" = Some (UnexpectedInformState "wait_empty")
     ∧ sm !! "wait_empty" = None)
  ∧ ¬ (∀ name s target,
         sm !! name = Some s → target ∈ successors s → is_Some (sm !! target)).
Proof.
  cbv zeta. rewrite state_map_init.
  repeat split; try (vm_compute; reflexivity).
  intros Hall.
  destruct (Hall "get_params" (GetParametersState "wait_get_parameters")
                 "wait_get_parameters") as [s Hs].
  - vm_compute; reflexivity.
  - simpl. apply list_elem_of_singleton. reflexivity.
  - vm_compute in Hs. discriminate.
Qed.

(** ** Manual reboot *)

(** C2 (as stated, fails): with the handler in ['set_params'], in the
    middle of a reconciliation, [reboot_asap] moves it straight to the first
    state of the reboot sequence. *)
Lemma reboot_asap_interrupts_reconciliation :
  let self := _init_state_map
                (mkCaviumHandler ∅ (SetParameterValuesNotAdminState "wait_set_params")) in
  state_map self !! "set_params" = Some (state self)
  ∧ reconciliation_in_progress (state self) = true
  ∧ ∃ self', reboot_asap self = Ok self'
             ∧ state self' = SendRebootState "wait_reboot"
             ∧ in_reboot_sequence (state self') = true.
Proof.
  cbv zeta. split; [vm_compute; reflexivity|]. split; [vm_compute; reflexivity|].
  exists {| _state_map := dict_of_items state_map_display;
            state := SendRebootState "wait_reboot" |}.
  repeat split; vm_compute; reflexivity.
Qed.

(** C2 (amended): [reboot_asap] is unconditional.  Whatever the current
    state of an initialized handler, it succeeds and leaves the handler in
    the ['reboot'] state, [SendRebootState] with successor ['wait_reboot'];
    there is no source-state guard and nothing is queued. *)
Theorem reboot_asap_unconditional (self : CaviumHandler) :
  reboot_asap (_init_state_map self) =
    Ok {| _state_map := state_map (_init_state_map self);
          state := SendRebootState "wait_reboot" |}
  ∧ state_map (_init_state_map self) !! "reboot" = Some (SendRebootState "wait_reboot")
  ∧ in_reboot_sequence (SendRebootState "wait_reboot") = true.
Proof.
  assert (Hreboot : state_map (_init_state_map self) !! "reboot"
                    = Some (SendRebootState "wait_reboot"))
    by (vm_compute; reflexivity).
  split; [|split; [exact Hreboot | reflexivity]].
  unfold reboot_asap, transition. rewrite Hreboot. reflexivity.
Qed.

(** ** Waiting for the SetParameterValues response *)

(** C3: in [CaviumWaitDisableAdminEnableState.read_msg], a
    [SetParameterValuesResponse] with a non-zero [Status] raises
    [Tr069Error] and yields no result at all (in particular not the accepted
    result with the done transition); the accepted result with the done
    transition is returned exactly when [Status] is 0. *)
Theorem read_msg_status_checked (done_transition : string) (Status : Z) :
  let outcome :=
    (CaviumWaitDisableAdminEnableState.read_msg done_transition
       (SetParameterValuesResponse Status)).2 in
  (Status ≠ 0%Z →
     outcome = Raise (Tr069Error ("Received SetParameterValuesResponse with Status="
                                    +:+ pretty Status))
     ∧ ∀ r, outcome ≠ Ok r)
  ∧ (Status = 0%Z → outcome = Ok (mkAcsReadMsgResult true (Some done_transition)))
  ∧ (outcome = Ok (mkAcsReadMsgResult true (Some done_transition)) → Status = 0%Z).
Proof.
  cbv zeta. unfold CaviumWaitDisableAdminEnableState.read_msg.
  destruct (decide (Status ≠ 0%Z)) as [Hne|Heq]; simpl.
  - split; [|split].
    + intros _. split; [reflexivity | discriminate].
    + intros ->. by destruct Hne.
    + discriminate.
  - apply dec_stable in Heq.
    split; [|split].
    + intros Hne. by destruct Hne.
    + reflexivity.
    + by intros _.
Qed.

Lemma read_msg_status_checked_witness :
  (CaviumWaitDisableAdminEnableState.read_msg "delete_objs"
     (SetParameterValuesResponse 1)).2
    = Raise (Tr069Error "Received SetParameterValuesResponse with Status=1")
  ∧ (CaviumWaitDisableAdminEnableState.read_msg "delete_objs"
       (SetParameterValuesResponse 0)).2
    = Ok (mkAcsReadMsgResult true (Some "delete_objs")).
Proof.
  split.
  - apply (read_msg_status_checked "delete_objs" 1). lia.
  - apply (read_msg_status_checked "delete_objs" 0). reflexivity.
Defined.

(** C4 (as stated, fails): the raised error does not carry the fault code.
    Two faults that differ only in [FaultCode] raise the same error, so no
    function of the error returns the code of the message. *)
Lemma read_msg_fault_code_dropped :
  let m1 := Fault 9001 "Request denied" None in
  let m2 := Fault 9002 "Request denied" None in
  CaviumWaitDisableAdminEnableState.read_msg "delete_objs" m1
    = (["Received Fault in response to SetParameterValues"],
       Raise (Tr069Error "Received Fault in response to SetParameterValues (faultstring = Request denied)"))
  ∧ CaviumWaitDisableAdminEnableState.read_msg "delete_objs" m2
    = CaviumWaitDisableAdminEnableState.read_msg "delete_objs" m1
  ∧ ¬ ∃ code_of : exn → Z,
        ∀ code, code ∈ [9001%Z; 9002%Z] →
          ∃ e, (CaviumWaitDisableAdminEnableState.read_msg "delete_objs"
                  (Fault code "Request denied" None)).2 = Raise e
               ∧ code_of e = code.
Proof.
  cbv zeta. split; [reflexivity|]. split; [reflexivity|].
  intros [code_of Hcode].
  destruct (Hcode 9001%Z) as (e1 & He1 & Hc1); [set_solver|].
  destruct (Hcode 9002%Z) as (e2 & He2 & Hc2); [set_solver|].
  simpl in He1, He2. congruence.
Qed.

(** C4 (amended): for every [Fault] message, whatever its fields,
    [read_msg] raises [Tr069Error] (it is never rejected by the
    expected-response type check, nor accepted); the error message embeds
    the message's [FaultString] verbatim, so that the string can be read
    back from the error; the outcome does not depend on [FaultCode]. *)
Theorem read_msg_fault_raises (done_transition : string) (FaultCode : Z)
    (FaultString : string) (faults : option (list ParameterValuesFault)) :
  let read := CaviumWaitDisableAdminEnableState.read_msg done_transition in
  (read (Fault FaultCode FaultString faults)).2
    = Raise (Tr069Error ("Received Fault in response to SetParameterValues (faultstring = "
                           +:+ FaultString +:+ ")"))
  ∧ (∀ FaultCode' FaultString' faults',
       (read (Fault FaultCode' FaultString' faults')).2
         = (read (Fault FaultCode FaultString faults)).2
       ↔ FaultString' = FaultString)
  ∧ (∀ FaultCode',
       read (Fault FaultCode' FaultString faults)
         = read (Fault FaultCode FaultString faults)).
Proof.
  cbv zeta. split; [reflexivity|]. split; [|reflexivity].
  intros code' fs' faults'. split.
  - simpl. intros Heq. injection Heq as Heq.
    by apply string_app_inj_r in Heq.
  - by intros ->.
Qed.

(** ** The configuration post-processor *)

(** C5: after [postprocess], the configuration maps [CELL_BARRED] and
    [ADMIN_STATE] to [True], whatever it held for them before; every other
    key is left as it was. *)
Theorem postprocess_forces_safety_values (desired_cfg : EnodebConfiguration) :
  postprocess desired_cfg !! CELL_BARRED = Some (VBool true)
  ∧ postprocess desired_cfg !! ADMIN_STATE = Some (VBool true)
  ∧ ∀ k, k ≠ CELL_BARRED → k ≠ ADMIN_STATE →
         postprocess desired_cfg !! k = desired_cfg !! k.
Proof.
  unfold postprocess, set_parameter, EnodebConfiguration in *.
  split; [|split].
  - rewrite lookup_insert_ne by discriminate. apply lookup_insert_eq.
  - apply lookup_insert_eq.
  - intros k Hb Ha. by rewrite !lookup_insert_ne.
Qed.

Lemma postprocess_forces_safety_values_witness :
  let cfg : EnodebConfiguration :=
    dict_of_items [(CELL_BARRED, VBool false); (ADMIN_STATE, VStr "0"); (TAC, VInt 1)] in
  postprocess cfg !! CELL_BARRED = Some (VBool true)
  ∧ postprocess cfg !! ADMIN_STATE = Some (VBool true)
  ∧ postprocess cfg !! TAC = Some (VInt 1).
Proof.
  cbv zeta.
  pose proof (postprocess_forces_safety_values
                (dict_of_items [(CELL_BARRED, VBool false); (ADMIN_STATE, VStr "0");
                                (TAC, VInt 1)])) as (Hb & Ha & Hk).
  split; [exact Hb|]. split; [exact Ha|].
  rewrite Hk; [vm_compute; reflexivity | discriminate | discriminate].
Defined.

(** C6: [postprocess] is idempotent. *)
Theorem postprocess_idempotent (desired_cfg : EnodebConfiguration) :
  postprocess (postprocess desired_cfg) = postprocess desired_cfg.
Proof.
  unfold postprocess, set_parameter, EnodebConfiguration in *.
  rewrite (insert_insert_ne _ CELL_BARRED ADMIN_STATE) by discriminate.
  by rewrite !insert_insert_eq.
Qed.

(** ** The parameter catalog *)

Lemma PARAMETERS_dict_of_items : PARAMETERS = dict_of_items PARAMETERS_assignments.
Proof.
  unfold PARAMETERS, PARAMETERS_assignments, dict_of_items.
  by rewrite foldl_setitem_bind, foldl_app.
Qed.

Lemma PARAMETERS_keys_NoDup : NoDup (PARAMETERS_assignments.*1).
Proof. compute_done. Qed.

Lemma PARAMETERS_paths_NoDup :
  NoDup ((λ kd : ParameterName * TrParam, path kd.2) <$> PARAMETERS_assignments).
Proof. compute_done. Qed.

Lemma PARAMETERS_lookup_assignments (k : ParameterName) (d : TrParam) :
  PARAMETERS !! k = Some d ↔ (k, d) ∈ PARAMETERS_assignments.
Proof.
  rewrite PARAMETERS_dict_of_items.
  apply dict_of_items_lookup, PARAMETERS_keys_NoDup.
Qed.

(** C8: [get_num_plmns()] is 6 and, for every index [i] from 1 to it, the
    catalog has an [OBJECT] descriptor for the [i]-th PLMN entry, and
    [get_numbered_param_names()] maps that entry to exactly its four
    children (cell reserved, enable, is-primary, PLMN id), each of which has
    a scalar descriptor in the catalog. *)
Theorem PLMN_objects_and_children (i : nat)
    (Hlo : (1 ≤ i)%nat) (Hhi : (i ≤ get_num_plmns)%nat) :
  get_num_plmns = 6
  ∧ (∃ d, get_parameter (PLMN_N i) = Some d ∧ wireType d = OBJECT)
  ∧ get_numbered_param_names !! PLMN_N i
    = Some [PLMN_N_CELL_RESERVED i; PLMN_N_ENABLE i; PLMN_N_PRIMARY i; PLMN_N_PLMNID i]
  ∧ Forall (λ child, ∃ d, get_parameter child = Some d ∧ wireType d ≠ OBJECT)
           [PLMN_N_CELL_RESERVED i; PLMN_N_ENABLE i; PLMN_N_PRIMARY i; PLMN_N_PLMNID i].
Proof.
  unfold get_num_plmns, NUM_PLMNS_IN_CONFIG in *.
  assert (Hi : i ∈ seq 1 6) by (apply elem_of_seq; lia).
  split; [reflexivity|].
  simpl in Hi.
  repeat (apply elem_of_cons in Hi as [->|Hi];
          [split; [eexists; split; vm_compute; reflexivity|];
           split; [vm_compute; reflexivity|];
           repeat (apply Forall_cons; split;
                   [eexists; split; [vm_compute; reflexivity | vm_compute; discriminate]|]);
           apply Forall_nil_2 |]).
  by apply elem_of_nil in Hi.
Qed.

Lemma PLMN_objects_and_children_witness :
  get_numbered_param_names !! PLMN_N 6
  = Some [PLMN_N_CELL_RESERVED 6; PLMN_N_ENABLE 6; PLMN_N_PRIMARY 6; PLMN_N_PLMNID 6].
Proof.
  apply (PLMN_objects_and_children 6); unfold get_num_plmns, NUM_PLMNS_IN_CONFIG; lia.
Defined.

(** C9: every assignment made while the catalog is built is to a fresh key,
    so each key of the catalog has the one descriptor it was assigned; and
    two distinct keys of the catalog, the generated PLMN keys included,
    never have the same path. *)
Theorem PARAMETERS_paths_unique :
  NoDup (PARAMETERS_assignments.*1)
  ∧ (∀ k d, PARAMETERS !! k = Some d ↔ (k, d) ∈ PARAMETERS_assignments)
  ∧ (∀ k1 k2 d1 d2,
       PARAMETERS !! k1 = Some d1 → PARAMETERS !! k2 = Some d2 →
       k1 ≠ k2 → path d1 ≠ path d2).
Proof.
  split; [exact PARAMETERS_keys_NoDup|].
  split; [exact PARAMETERS_lookup_assignments|].
  intros k1 k2 d1 d2 H1 H2 Hne Hpath.
  apply PARAMETERS_lookup_assignments in H1, H2.
  apply Hne.
  assert (Heq : (k1, d1) = (k2, d2)).
  { apply (NoDup_fmap_elem_inj (λ kd, path kd.2) PARAMETERS_assignments); try done.
    exact PARAMETERS_paths_NoDup. }
  congruence.
Qed.

Lemma PARAMETERS_paths_unique_witness :
  ∃ d1 d2,
    PARAMETERS !! PLMN = Some d1 ∧ PARAMETERS !! PLMN_N 1 = Some d2
    ∧ path d1 ≠ path d2.
Proof.
  exists (mkTrParam "Device.Services.FAPService.1.CellConfig.LTE.EPC.PLMNList."
                    true OBJECT false),
         (mkTrParam "Device.Services.FAPService.1.CellConfig.LTE.EPC.PLMNList.1."
                    true OBJECT false).
  assert (H1 : PARAMETERS !! PLMN
               = Some (mkTrParam "Device.Services.FAPService.1.CellConfig.LTE.EPC.PLMNList."
                                 true OBJECT false)) by (vm_compute; reflexivity).
  assert (H2 : PARAMETERS !! PLMN_N 1
               = Some (mkTrParam "Device.Services.FAPService.1.CellConfig.LTE.EPC.PLMNList.1."
                                 true OBJECT false)) by (vm_compute; reflexivity).
  split; [exact H1|]. split; [exact H2|].
  apply (proj2 (proj2 PARAMETERS_paths_unique) PLMN (PLMN_N 1) _ _ H1 H2).
  discriminate.
Defined.

(** C10: [get_parameter] is a total lookup.  For a key of [PARAMETERS] it
    returns the descriptor stored there, which is the only one ever assigned
    to that key; for any other key it returns [None]. *)
Theorem get_parameter_total (param_name : ParameterName) :
  (∀ d, PARAMETERS !! param_name = Some d →
        get_parameter param_name = Some d
        ∧ ∀ d', (param_name, d') ∈ PARAMETERS_assignments → d' = d)
  ∧ (param_name ∉ dom PARAMETERS → get_parameter param_name = None)
  ∧ (get_parameter param_name = None ∨ ∃ d, get_parameter param_name = Some d).
Proof.
  unfold get_parameter. split; [|split].
  - intros d Hd. split; [exact Hd|].
    intros d' Hd'. apply PARAMETERS_lookup_assignments in Hd'. congruence.
  - intros Hdom. by apply not_elem_of_dom.
  - destruct (PARAMETERS !! param_name) as [d|]; [right; by exists d | by left].
Qed.

Lemma get_parameter_total_witness :
  get_parameter ADMIN_STATE
    = Some (mkTrParam "Device.Services.FAPService.1.FAPControl.LTE.AdminState"
                      false BOOLEAN false)
  ∧ get_parameter (PLMN_N 7) = None.
Proof.
  split.
  - apply (get_parameter_total ADMIN_STATE). vm_compute. reflexivity.
  - apply (get_parameter_total (PLMN_N 7)).
    rewrite not_elem_of_dom. vm_compute. reflexivity.
Defined.

(** * Further properties of the handler *)

Lemma state_map_lookup_display (self : CaviumHandler) (name : string) (s : EnodebAcsState) :
  state_map (_init_state_map self) !! name = Some s ↔ (name, s) ∈ state_map_display.
Proof.
  rewrite state_map_init. apply dict_of_items_lookup. compute_done.
Qed.

(** X1: [is_enodeb_connected] is [False] in exactly one state of the state
    map, the one registered under [disconnected_state_name]. *)
Theorem is_enodeb_connected_iff_not_disconnected
    (self : CaviumHandler) (name : string) (s : EnodebAcsState) :
  state_map (_init_state_map self) !! name = Some s →
  is_enodeb_connected {| _state_map := _state_map self; state := s |} = false
  ↔ name = disconnected_state_name.
Proof.
  intros Hs. apply state_map_lookup_display in Hs.
  assert (Hall : Forall (λ e : string * EnodebAcsState,
                           match e.2 with DisconnectedState _ => false | _ => true end = false
                           ↔ e.1 = disconnected_state_name)
                        state_map_display) by compute_done.
  rewrite Forall_forall in Hall. exact (Hall _ Hs).
Qed.

Lemma is_enodeb_connected_iff_not_disconnected_witness :
  is_enodeb_connected
    {| _state_map := ∅; state := DisconnectedState "get_transient_params" |} = false
  ∧ is_enodeb_connected
      {| _state_map := ∅; state := SendRebootState "wait_reboot" |} = true.
Proof.
  split.
  - apply (is_enodeb_connected_iff_not_disconnected
             (mkCaviumHandler ∅ ErrorState) "disconnected"
             (DisconnectedState "get_transient_params")).
    + vm_compute. reflexivity.
    + reflexivity.
  - apply not_false_iff_true. intros Hconn.
    apply (is_enodeb_connected_iff_not_disconnected
             (mkCaviumHandler ∅ ErrorState) "reboot" (SendRebootState "wait_reboot")) in Hconn.
    + discriminate.
    + vm_compute. reflexivity.
Defined.

(** X2: the state registered under [unexpected_fault_state_name] is the only
    state of the map that was given no successor at all; every other state
    names at least one. *)
Theorem unexpected_fault_only_terminal
    (self : CaviumHandler) (name : string) (s : EnodebAcsState) :
  state_map (_init_state_map self) !! name = Some s →
  successors s = [] ↔ name = unexpected_fault_state_name.
Proof.
  intros Hs. apply state_map_lookup_display in Hs.
  assert (Hall : Forall (λ e : string * EnodebAcsState,
                           successors e.2 = [] ↔ e.1 = unexpected_fault_state_name)
                        state_map_display) by compute_done.
  rewrite Forall_forall in Hall. exact (Hall _ Hs).
Qed.

Lemma unexpected_fault_only_terminal_witness :
  successors ErrorState = [] ∧ successors (UnexpectedInformState "wait_empty") ≠ [].
Proof.
  split.
  - apply (unexpected_fault_only_terminal (mkCaviumHandler ∅ ErrorState)
             "unexpected_fault" ErrorState).
    + vm_compute. reflexivity.
    + reflexivity.
  - intros Hnil.
    apply (unexpected_fault_only_terminal (mkCaviumHandler ∅ ErrorState)
             "unexpected_inform" (UnexpectedInformState "wait_empty")) in Hnil.
    + discriminate.
    + vm_compute. reflexivity.
Defined.

Lemma state_map_step_intro (self : CaviumHandler) (a b : string) (s : EnodebAcsState) :
  (a, s) ∈ state_map_display → b ∈ successors s → b ∈ state_map_display.*1 →
  state_map_step (state_map (_init_state_map self)) a b.
Proof.
  intros Ha Hb Hkey. exists s. split; [by apply state_map_lookup_display|].
  split; [done|].
  apply list_elem_of_fmap in Hkey as ([b' s'] & -> & Hkey).
  exists s'. by apply state_map_lookup_display.
Qed.

(** X3: following successor names from ['disconnected'], the states that can
    be reached are exactly these eight.  In particular the admin-disable
    states, ['wait_get_params'] and the reboot states are not among them. *)
Theorem state_map_reachable_from_disconnected (self : CaviumHandler) (name : string) :
  rtc (state_map_step (state_map (_init_state_map self))) disconnected_state_name name
  ↔ name ∈ ["disconnected"; "get_transient_params"; "wait_get_transient_params";
            "get_params"; "delete_objs"; "add_objs"; "set_params"; "wait_set_params"].
Proof.
  set (R := state_map_step _).
  set (reach := [_; _; _; _; _; _; _; _]).
  split.
  - revert name. apply (rtc_ind_r (λ name, name ∈ reach)).
    + compute_done.
    + intros m z _ Hstep Hz.
      destruct Hstep as (s & Hs & Hsucc & Hkey).
      apply state_map_lookup_display in Hs.
      assert (Hall : Forall (λ e : string * EnodebAcsState,
                               e.1 ∈ reach →
                               Forall (λ b, b ∈ state_map_display.*1 → b ∈ reach)
                                      (successors e.2))
                            state_map_display) by compute_done.
      rewrite Forall_forall in Hall. specialize (Hall _ Hs Hz).
      rewrite Forall_forall in Hall. apply Hall; [done|].
      destruct Hkey as [s' Hs']. apply state_map_lookup_display in Hs'.
      by apply (list_elem_of_fmap_2 fst) in Hs'.
  - intros Hname.
    assert (H1 : R "disconnected" "get_transient_params")
      by (apply (state_map_step_intro self _ _ (DisconnectedState "get_transient_params"));
          compute_done).
    assert (H2 : R "get_transient_params" "wait_get_transient_params")
      by (apply (state_map_step_intro self _ _
                   (SendGetTransientParametersState "wait_get_transient_params"));
          compute_done).
    assert (H3 : ∀ b, b ∈ ["get_params"; "delete_objs"; "add_objs"; "set_params"] →
                      R "wait_get_transient_params" b).
    { intros b Hb.
      apply (state_map_step_intro self _ _
               (WaitGetTransientParametersState "get_params" "get_obj_params"
                  "delete_objs" "add_objs" "set_params" "get_transient_params"));
        [compute_done | |];
        repeat (apply elem_of_cons in Hb as [->|Hb]; [compute_done|]);
        by apply elem_of_nil in Hb. }
    assert (H4 : R "set_params" "wait_set_params")
      by (apply (state_map_step_intro self _ _ (SetParameterValuesNotAdminState "wait_set_params"));
          compute_done).
    assert (Hw : rtc R disconnected_state_name "wait_get_transient_params")
      by (eapply rtc_l; [exact H1|]; by apply rtc_once).
    repeat (apply elem_of_cons in Hname as [->|Hname]).
    + apply rtc_refl.
    + by apply rtc_once.
    + exact Hw.
    + eapply rtc_r; [exact Hw|]. apply H3. compute_done.
    + eapply rtc_r; [exact Hw|]. apply H3. compute_done.
    + eapply rtc_r; [exact Hw|]. apply H3. compute_done.
    + eapply rtc_r; [exact Hw|]. apply H3. compute_done.
    + eapply rtc_r; [|exact H4]. eapply rtc_r; [exact Hw|]. apply H3. compute_done.
    + by apply elem_of_nil in Hname.
Qed.

(** * Further properties of the Cavium-only states *)

Lemma get_msg_some (data_model : DataModel) (done_transition : string) (p : TrParam) :
  dm_get_parameter data_model ADMIN_STATE = Some p →
  CaviumDisableAdminEnableState.get_msg data_model done_transition
  = Ok {| msg :=
            {| ParameterList :=
                 {| arrayType := "cwmp:ParameterValueStruct[1]";
                    ParameterValueStructs :=
                      [ {| Name := path p;
                           Value :=
                             {| type := "xsd:string";
                                Data := str (transform_for_enb
                                               (dm_get_enb_transforms data_model)
                                               ADMIN_STATE (VBool false)) |} |} ] |} |};
          msg_next_state := done_transition |}.
Proof.
  intros Hp.
  assert (Hfmt : fmt_d "cwmp:ParameterValueStruct[" 1 "]"
                 = "cwmp:ParameterValueStruct[1]") by (vm_compute; reflexivity).
  unfold CaviumDisableAdminEnableState.get_msg.
  rewrite Hp. cbn [mbind result_bind].
  rewrite map_size_singleton, Hfmt. reflexivity.
Qed.

(** X4: [get_msg] against any data model.  Without a descriptor for
    [ADMIN_STATE] it raises [AttributeError] and builds no request; with one
    it always succeeds, and the request holds exactly one
    [ParameterValueStruct], named by the descriptor's path and typed
    [xsd:string], the declared array size is 1, and the transition is the
    [when_done] name.  When no transform is registered for the key the value
    sent is the text [False]. *)
Theorem get_msg_any_data_model (data_model : DataModel) (done_transition : string) :
  (dm_get_parameter data_model ADMIN_STATE = None →
     ∃ text, CaviumDisableAdminEnableState.get_msg data_model done_transition
             = Raise (AttributeError text))
  ∧ (∀ p, dm_get_parameter data_model ADMIN_STATE = Some p →
       ∃ value,
         CaviumDisableAdminEnableState.get_msg data_model done_transition
         = Ok {| msg :=
                   {| ParameterList :=
                        {| arrayType := "cwmp:ParameterValueStruct[1]";
                           ParameterValueStructs :=
                             [ {| Name := path p;
                                  Value := {| type := "xsd:string"; Data := value |} |} ] |} |};
                 msg_next_state := done_transition |}
         ∧ (dm_get_enb_transforms data_model !! ADMIN_STATE = None → value = "False")).
Proof.
  split.
  - intros Hnone. eexists.
    unfold CaviumDisableAdminEnableState.get_msg. rewrite Hnone. reflexivity.
  - intros p Hp. eexists. split; [by apply get_msg_some|].
    intros Htr. unfold transform_for_enb. by rewrite Htr.
Qed.

Lemma get_msg_any_data_model_witness :
  ∃ text,
    CaviumDisableAdminEnableState.get_msg
      {| dm_get_parameter := λ _, None; dm_get_enb_transforms := ∅ |} "wait_disable_admin"
    = Raise (AttributeError text).
Proof.
  apply (get_msg_any_data_model
           {| dm_get_parameter := λ _, None; dm_get_enb_transforms := ∅ |}
           "wait_disable_admin").
  reflexivity.
Defined.

(** X5: the admin-disable sequence is wired consistently.  The name
    [get_msg] returns in the state registered under ['disable_admin'] is
    the key of the Cavium wait state, and the name that wait state returns
    on a response with status 0 is the key of [DeleteObjectsState]. *)
Theorem admin_disable_sequence_wired (self : CaviumHandler) (bandwidth : pyval → pyval) :
  let sm := state_map (_init_state_map self) in
  ∃ d1 d2 request,
    sm !! "disable_admin" = Some (CaviumDisableAdminEnableState d1)
    ∧ CaviumDisableAdminEnableState.get_msg (CaviumTrDataModel bandwidth) d1
      = Ok (mkAcsMsgAndTransition request d1)
    ∧ sm !! d1 = Some (CaviumWaitDisableAdminEnableState d2)
    ∧ (CaviumWaitDisableAdminEnableState.read_msg d2 (SetParameterValuesResponse 0)).2
      = Ok (mkAcsReadMsgResult true (Some d2))
    ∧ sm !! d2 = Some (DeleteObjectsState "add_objs" "set_params").
Proof.
  cbv zeta. exists "wait_disable_admin", "delete_objs". eexists.
  split; [apply state_map_lookup_display; compute_done|].
  split.
  { apply get_msg_some.
    change (dm_get_parameter (CaviumTrDataModel bandwidth) ADMIN_STATE)
      with (get_parameter ADMIN_STATE).
    vm_compute. reflexivity. }
  split; [apply state_map_lookup_display; compute_done|].
  split; [reflexivity|].
  apply state_map_lookup_display; compute_done.
Qed.

(** X6: what [CaviumWaitDisableAdminEnableState.read_msg] returns without
    raising.  It never logs on that path, and the result is either the
    accepted one, only for a [SetParameterValuesResponse] with status 0 and
    always naming [done_transition], or the rejection [(False, None)], only
    for a message that is neither a [Fault] nor a
    [SetParameterValuesResponse]. *)
Theorem wait_read_msg_returns (done_transition : string) (m : message)
    (l : log) (r : AcsReadMsgResult) :
  CaviumWaitDisableAdminEnableState.read_msg done_transition m = (l, Ok r) →
  l = []
  ∧ ((r = mkAcsReadMsgResult true (Some done_transition)
      ∧ m = SetParameterValuesResponse 0)
     ∨ (r = mkAcsReadMsgResult false None
        ∧ m ∈ [GetParameterValuesResponse; RebootResponse; Inform; DummyInput])).
Proof.
  unfold CaviumWaitDisableAdminEnableState.read_msg.
  destruct m as [code fs faults|Status| | | |]; try discriminate.
  - destruct (decide (Status ≠ 0%Z)) as [Hne|Heq]; [discriminate|].
    apply dec_stable in Heq. subst Status.
    intros [= <- <-]. split; [done|]. by left.
  - intros [= <- <-]. split; [done|]. right. split; [done|]. set_solver.
  - intros [= <- <-]. split; [done|]. right. split; [done|]. set_solver.
  - intros [= <- <-]. split; [done|]. right. split; [done|]. set_solver.
  - intros [= <- <-]. split; [done|]. right. split; [done|]. set_solver.
Qed.

Lemma wait_read_msg_returns_witness :
  Inform ∈ [GetParameterValuesResponse; RebootResponse; Inform; DummyInput].
Proof.
  destruct (wait_read_msg_returns "delete_objs" Inform []
              (mkAcsReadMsgResult false None) eq_refl) as [_ [[Hr _]|[_ Hm]]].
  - discriminate Hr.
  - exact Hm.
Defined.

(** X7: [CaviumDisableAdminEnableState.read_msg] handles [DummyInput] and
    nothing else, and never names a next state; the message it handles is
    rejected by the wait state that follows it, which handles none of the
    messages the disable state handles. *)
Theorem disable_read_msg_handles_only_DummyInput (m : message) :
  (msg_handled (CaviumDisableAdminEnableState.read_msg m) = true ↔ m = DummyInput)
  ∧ next_state (CaviumDisableAdminEnableState.read_msg m) = None
  ∧ (msg_handled (CaviumDisableAdminEnableState.read_msg m) = true →
     ∀ done_transition,
       CaviumWaitDisableAdminEnableState.read_msg done_transition m
       = ([], Ok (mkAcsReadMsgResult false None))).
Proof.
  destruct m; simpl; (split; [split; (done || discriminate)|]); (split; [done|]);
    (done || discriminate).
Qed.

Lemma disable_read_msg_handles_only_DummyInput_witness :
  CaviumWaitDisableAdminEnableState.read_msg "delete_objs" DummyInput
  = ([], Ok (mkAcsReadMsgResult false None)).
Proof.
  apply (disable_read_msg_handles_only_DummyInput DummyInput). reflexivity.
Defined.

(** X8: the error raised for a bad status identifies the status: two
    responses, one of them with a non-zero status, lead to the same outcome
    only if their statuses are equal. *)
Theorem read_msg_status_error_injective (done_transition : string) (Status1 Status2 : Z) :
  Status1 ≠ 0%Z →
  (CaviumWaitDisableAdminEnableState.read_msg done_transition
     (SetParameterValuesResponse Status1)).2
  = (CaviumWaitDisableAdminEnableState.read_msg done_transition
       (SetParameterValuesResponse Status2)).2 →
  Status1 = Status2.
Proof.
  intros Hne. unfold CaviumWaitDisableAdminEnableState.read_msg.
  destruct (decide (Status1 ≠ 0%Z)) as [_|Hn]; [|by destruct Hn].
  destruct (decide (Status2 ≠ 0%Z)) as [_|_]; simpl; [|discriminate].
  intros [= Heq]. by apply (inj pretty).
Qed.

Lemma read_msg_status_error_injective_witness : 9003%Z = 9003%Z.
Proof.
  apply (read_msg_status_error_injective "delete_objs" 9003 9003); [lia | reflexivity].
Defined.

(** * Further properties of the catalog *)

Lemma startswith_app (s pre : string) :
  startswith s pre = true ↔ ∃ rest, s = pre +:+ rest.
Proof.
  unfold startswith. revert s. induction pre as [|c pre IH]; intros s; simpl.
  - split; [intros _; by exists s | by destruct s].
  - destruct s as [|c' s]; simpl.
    + split; [discriminate|]. intros [rest Hrest].
      change ("" = String c (pre +:+ rest)) in Hrest. discriminate.
    + destruct (Ascii.ascii_dec c c') as [->|Hne].
      * rewrite IH. split; intros [rest Hrest]; exists rest.
        -- change (String c' s = String c' (pre +:+ rest)). by f_equal.
        -- change (String c' s = String c' (pre +:+ rest)) in Hrest. by injection Hrest.
      * split; [discriminate|]. intros [rest Hrest].
        change (String c' s = String c (pre +:+ rest)) in Hrest. congruence.
Qed.

Lemma get_parameter_is_Some (k : ParameterName) :
  is_Some (get_parameter k) ↔ k ∈ PARAMETERS_assignments.*1.
Proof.
  unfold get_parameter. split.
  - intros [d Hd]. apply PARAMETERS_lookup_assignments in Hd.
    by apply (list_elem_of_fmap_2 fst) in Hd.
  - intros Hk. apply list_elem_of_fmap in Hk as ([k' d] & -> & Hk).
    exists d. by apply PARAMETERS_lookup_assignments.
Qed.

Lemma get_parameter_Forall (P : ParameterName → TrParam → Prop) :
  Forall (λ kd, P kd.1 kd.2) PARAMETERS_assignments →
  ∀ k d, get_parameter k = Some d → P k d.
Proof.
  intros Hall k d Hd. apply PARAMETERS_lookup_assignments in Hd.
  rewrite Forall_forall in Hall. exact (Hall _ Hd).
Qed.

Lemma get_numbered_param_names_items (o : ParameterName) (cs : list ParameterName) :
  get_numbered_param_names !! o = Some cs
  ↔ (o, cs) ∈ (λ i, (PLMN_N i, [PLMN_N_CELL_RESERVED i; PLMN_N_ENABLE i;
                                 PLMN_N_PRIMARY i; PLMN_N_PLMNID i]))
              <$> seq 1 NUM_PLMNS_IN_CONFIG.
Proof.
  set (f := λ i, (PLMN_N i, _)).
  assert (Hd : get_numbered_param_names = dict_of_items (f <$> seq 1 NUM_PLMNS_IN_CONFIG)).
  { unfold get_numbered_param_names, dict_of_items, range.
    change (NUM_PLMNS_IN_CONFIG + 1 - 1) with NUM_PLMNS_IN_CONFIG.
    generalize (∅ : gmap ParameterName (list ParameterName)).
    induction (seq 1 NUM_PLMNS_IN_CONFIG) as [|i l IH]; intros d; [done|].
    simpl. apply IH. }
  rewrite Hd. apply dict_of_items_lookup. compute_done.
Qed.

(** X9: [get_numbered_param_names()] has exactly the six PLMN objects as
    keys: a key is mapped if and only if it is [PLMN_N % i] for an [i] from
    1 to [get_num_plmns()], and then to the four children of that same
    [i].  Index 0, index 7 and every non-object key are absent. *)
Theorem get_numbered_param_names_exact (o : ParameterName) (cs : list ParameterName) :
  get_numbered_param_names !! o = Some cs
  ↔ ∃ i, (1 ≤ i ≤ get_num_plmns)%nat
         ∧ o = PLMN_N i
         ∧ cs = [PLMN_N_CELL_RESERVED i; PLMN_N_ENABLE i; PLMN_N_PRIMARY i; PLMN_N_PLMNID i].
Proof.
  rewrite get_numbered_param_names_items, list_elem_of_fmap.
  unfold get_num_plmns.
  split.
  - intros (i & [= -> ->] & Hi). apply elem_of_seq in Hi. exists i. split; [lia|done].
  - intros (i & Hi & -> & ->). exists i. split; [done|]. apply elem_of_seq. lia.
Qed.

(** X10: the numbered names partition the generated part of the catalog.  A
    key has a descriptor exactly when it is a key of the dict display, a key
    of [get_numbered_param_names()] or a child listed there; and a child
    belongs to one object only. *)
Theorem numbered_names_cover_catalog :
  (∀ k, is_Some (get_parameter k)
        ↔ k ∈ PARAMETERS_display.*1
          ∨ is_Some (get_numbered_param_names !! k)
          ∨ ∃ o cs, get_numbered_param_names !! o = Some cs ∧ k ∈ cs)
  ∧ (∀ o1 o2 cs1 cs2 c,
       get_numbered_param_names !! o1 = Some cs1 →
       get_numbered_param_names !! o2 = Some cs2 →
       c ∈ cs1 → c ∈ cs2 → o1 = o2).
Proof.
  set (items := (λ i, (PLMN_N i, [PLMN_N_CELL_RESERVED i; PLMN_N_ENABLE i;
                                  PLMN_N_PRIMARY i; PLMN_N_PLMNID i]))
                  <$> seq 1 NUM_PLMNS_IN_CONFIG).
  split.
  - intros k. rewrite get_parameter_is_Some.
    assert (H12 : Forall (λ x, x ∈ PARAMETERS_display.*1 ∨ x ∈ items.*1 ∨ x ∈ mjoin items.*2)
                         PARAMETERS_assignments.*1) by compute_done.
    assert (H21 : Forall (λ x, x ∈ PARAMETERS_assignments.*1)
                         (PARAMETERS_display.*1 ++ items.*1 ++ mjoin items.*2)%list)
      by compute_done.
    rewrite Forall_forall in H12. rewrite Forall_forall in H21.
    split.
    + intros Hk. destruct (H12 _ Hk) as [Hd|[Ho|Hc]].
      * by left.
      * right; left. apply list_elem_of_fmap in Ho as ([o cs] & -> & Ho).
        exists cs. by apply get_numbered_param_names_items.
      * right; right. apply list_elem_of_join in Hc as (cs & Hkcs & Hcs).
        apply list_elem_of_fmap in Hcs as ([o cs'] & -> & Ho).
        exists o, cs'. split; [by apply get_numbered_param_names_items | done].
    + intros Hk. apply H21. rewrite !elem_of_app.
      destruct Hk as [Hd|[[cs Ho]|(o & cs & Ho & Hc)]].
      * by left.
      * right; left. apply get_numbered_param_names_items in Ho.
        by apply (list_elem_of_fmap_2 fst) in Ho.
      * right; right. apply get_numbered_param_names_items in Ho.
        apply list_elem_of_join. exists cs. split; [done|].
        by apply (list_elem_of_fmap_2 snd) in Ho.
  - intros o1 o2 cs1 cs2 c H1 H2 Hc1 Hc2.
    apply get_numbered_param_names_items in H1, H2.
    assert (Hall : Forall (λ e1, Forall (λ e2 : ParameterName * list ParameterName,
                             Forall (λ c, c ∈ e2.2 → e1.1 = e2.1) e1.2) items) items)
      by compute_done.
    rewrite Forall_forall in Hall. specialize (Hall _ H1).
    rewrite Forall_forall in Hall. specialize (Hall _ H2).
    rewrite Forall_forall in Hall. exact (Hall _ Hc1 Hc2).
Qed.

Lemma numbered_names_cover_catalog_witness :
  is_Some (get_parameter (PLMN_N_PRIMARY 2)) ∧ PLMN_N 2 = PLMN_N 2.
Proof.
  destruct numbered_names_cover_catalog as [Hcover Hone].
  assert (H2 : get_numbered_param_names !! PLMN_N 2
               = Some [PLMN_N_CELL_RESERVED 2; PLMN_N_ENABLE 2;
                       PLMN_N_PRIMARY 2; PLMN_N_PLMNID 2])
    by (vm_compute; reflexivity).
  split.
  - apply Hcover. right; right. eexists _, _. split; [exact H2|]. compute_done.
  - apply (Hone _ _ _ _ (PLMN_N_PRIMARY 2) H2 H2); compute_done.
Defined.

Lemma string_app_nil_r (s : string) : s +:+ "" = s.
Proof.
  induction s as [|c s IH]; [done|].
  change (String c (s +:+ "") = String c s). by rewrite IH.
Qed.

(** X11: in the catalog, the path of every child listed by
    [get_numbered_param_names()] is the path of its object followed by a
    non-empty leaf name. *)
Theorem children_paths_extend_object_path
    (o c : ParameterName) (cs : list ParameterName) (po pc : TrParam) :
  get_numbered_param_names !! o = Some cs → c ∈ cs →
  get_parameter o = Some po → get_parameter c = Some pc →
  ∃ leaf, leaf ≠ "" ∧ path pc = path po +:+ leaf.
Proof.
  intros Ho Hc Hpo Hpc. apply get_numbered_param_names_items in Ho.
  set (items := _ <$> _) in Ho.
  assert (Hall : Forall (λ e : ParameterName * list ParameterName,
                   Forall (λ c, default true
                                  (po ← get_parameter e.1; pc ← get_parameter c;
                                   Some (startswith (path pc) (path po)
                                         && negb (bool_decide (path pc = path po))))
                                = true) e.2) items) by compute_done.
  rewrite Forall_forall in Hall. specialize (Hall _ Ho).
  rewrite Forall_forall in Hall. specialize (Hall _ Hc).
  cbn [fst snd] in Hall. rewrite Hpo in Hall. cbn [mbind option_bind] in Hall.
  rewrite Hpc in Hall. cbn [mbind option_bind default] in Hall.
  apply andb_prop in Hall as [Hpre Hne].
  apply startswith_app in Hpre as [leaf Hleaf]. exists leaf. split; [|done].
  intros ->. rewrite string_app_nil_r in Hleaf.
  apply negb_true_iff, bool_decide_eq_false in Hne. contradiction.
Qed.

Lemma children_paths_extend_object_path_witness :
  ∃ leaf, leaf ≠ ""
          ∧ "Device.Services.FAPService.1.CellConfig.LTE.EPC.PLMNList.4.PLMNID"
            = "Device.Services.FAPService.1.CellConfig.LTE.EPC.PLMNList.4." +:+ leaf.
Proof.
  apply (children_paths_extend_object_path (PLMN_N 4) (PLMN_N_PLMNID 4)
           [PLMN_N_CELL_RESERVED 4; PLMN_N_ENABLE 4; PLMN_N_PRIMARY 4; PLMN_N_PLMNID 4]
           (mkTrParam "Device.Services.FAPService.1.CellConfig.LTE.EPC.PLMNList.4."
                      true OBJECT false)
           (mkTrParam "Device.Services.FAPService.1.CellConfig.LTE.EPC.PLMNList.4.PLMNID"
                      true STRING false)).
  - vm_compute. reflexivity.
  - compute_done.
  - vm_compute. reflexivity.
  - vm_compute. reflexivity.
Defined.

(** X12: [get_load_parameters()] names one parameter, it has an [OBJECT]
    descriptor, and the path of every descriptor of the catalog lies under
    its path; asking for it loads the whole catalog. *)
Theorem catalog_under_load_parameter (k : ParameterName) (d : TrParam) :
  get_parameter k = Some d →
  ∃ root droot,
    get_load_parameters = [root]
    ∧ get_parameter root = Some droot
    ∧ wireType droot = OBJECT
    ∧ ∃ rest, path d = path droot +:+ rest.
Proof.
  intros Hd. exists DEVICE, (mkTrParam DEVICE_PATH true OBJECT false).
  split; [done|]. split; [vm_compute; reflexivity|]. split; [done|].
  apply startswith_app. revert k d Hd.
  apply (get_parameter_Forall (λ _ d, startswith (path d) DEVICE_PATH = true)).
  compute_done.
Qed.

Lemma catalog_under_load_parameter_witness :
  ∃ root droot,
    get_load_parameters = [root]
    ∧ get_parameter root = Some droot
    ∧ wireType droot = OBJECT
    ∧ ∃ rest, "Device.IPsec.Enable" = path droot +:+ rest.
Proof.
  apply (catalog_under_load_parameter IP_SEC_ENABLE
           (mkTrParam "Device.IPsec.Enable" false BOOLEAN false)).
  vm_compute. reflexivity.
Defined.

(** X13: in the catalog a descriptor is typed [OBJECT] exactly when its
    path ends with a dot (a partial path); every other descriptor names a
    leaf. *)
Theorem object_paths_end_with_dot (k : ParameterName) (d : TrParam) :
  get_parameter k = Some d →
  wireType d = OBJECT ↔ ends_with_dot (path d) = true.
Proof.
  revert k d.
  apply (get_parameter_Forall (λ _ d, wireType d = OBJECT ↔ ends_with_dot (path d) = true)).
  compute_done.
Qed.

Lemma object_paths_end_with_dot_witness :
  ends_with_dot "Device.Services.FAPService.1.CellConfig.LTE.EPC.PLMNList." = true.
Proof.
  apply (object_paths_end_with_dot PLMN
           (mkTrParam "Device.Services.FAPService.1.CellConfig.LTE.EPC.PLMNList."
                      true OBJECT false)).
  - vm_compute. reflexivity.
  - reflexivity.
Defined.

(** ** The numbered paths for an arbitrary index *)

Lemma pretty_N_go_digits (x : N) (s : string) :
  all_digits s = true → all_digits (pretty_N_go x s) = true.
Proof.
  revert s. induction (N.lt_wf_0 x) as [x _ IH]; intros s Hs.
  assert (x = 0 ∨ 0 < x)%N as [->|Hpos] by lia.
  - by rewrite pretty_N_go_0.
  - rewrite pretty_N_go_step by done. apply IH.
    + by apply N.div_lt.
    + simpl. rewrite Hs, andb_true_r.
      unfold pretty_N_char. by repeat case_match.
Qed.

Lemma pretty_nat_digits (i : nat) : all_digits (pretty i) = true.
Proof.
  unfold pretty, pretty_nat, pretty, pretty_N.
  case_decide; [done|]. by apply pretty_N_go_digits.
Qed.

Lemma digits_sep_split (d1 d2 r1 r2 : string) (c : Ascii.ascii) :
  is_digit c = false → all_digits d1 = true → all_digits d2 = true →
  d1 +:+ String c r1 = d2 +:+ String c r2 → d1 = d2 ∧ r1 = r2.
Proof.
  intros Hc. revert d2. induction d1 as [|a d1 IH]; intros [|b d2] H1 H2 Heq.
  - change (String c r1 = String c r2) in Heq. by injection Heq.
  - change (String c r1 = String b (d2 +:+ String c r2)) in Heq.
    injection Heq as -> _. simpl in H2. rewrite Hc in H2. discriminate.
  - change (String a (d1 +:+ String c r1) = String c r2) in Heq.
    injection Heq as -> _. simpl in H1. rewrite Hc in H1. discriminate.
  - change (String a (d1 +:+ String c r1) = String b (d2 +:+ String c r2)) in Heq.
    injection Heq as -> Heq. simpl in H1, H2.
    apply andb_prop in H1 as [_ H1]. apply andb_prop in H2 as [_ H2].
    destruct (IH d2 H1 H2 Heq) as [-> ->]. done.
Qed.

Lemma PLMN_path_eq (i j : nat) (r1 r2 : string) (c : Ascii.ascii) :
  is_digit c = false →
  FAPSERVICE_PATH +:+ fmt_d "CellConfig.LTE.EPC.PLMNList." i (String c r1)
  = FAPSERVICE_PATH +:+ fmt_d "CellConfig.LTE.EPC.PLMNList." j (String c r2) →
  i = j ∧ r1 = r2.
Proof.
  intros Hc Heq. unfold fmt_d in Heq.
  apply (inj (String.app _)) in Heq. apply (inj (String.app _)) in Heq.
  apply digits_sep_split in Heq as [Hp Hr]; try done; try apply pretty_nat_digits.
  split; [|done]. by apply (inj pretty).
Qed.

Lemma PLMN_path_shape (i : nat) (e : ParameterName * TrParam) :
  e ∈ PLMN_assignments i →
  (29 ≤ (ParameterName_code e.1).1)%nat
  ∧ ∃ r, path e.2
         = "Device.Services.FAPService.1.CellConfig.LTE.EPC.PLMNList."
             +:+ (pretty i +:+ ("." +:+ r)).
Proof.
  unfold PLMN_assignments. intros He.
  repeat (apply elem_of_cons in He as [->|He];
          [split; [simpl; lia | eexists; reflexivity]|]).
  by apply elem_of_nil in He.
Qed.

(** X14: the paths and keys generated by the class-body loop never collide,
    for any index and not only for 1 to 6.  Two generated entries with the
    same path come from the same index and are the same entry; and a
    generated entry shares neither its path nor its key with an entry of
    the dict display. *)
Theorem PLMN_paths_never_collide (i j : nat) (e1 e2 : ParameterName * TrParam) :
  e1 ∈ PLMN_assignments i →
  (e2 ∈ PLMN_assignments j → path e1.2 = path e2.2 → i = j ∧ e1 = e2)
  ∧ (e2 ∈ PARAMETERS_display → path e1.2 ≠ path e2.2 ∧ e1.1 ≠ e2.1).
Proof.
  intros He1. split.
  - intros He2. unfold PLMN_assignments in He1, He2.
    repeat (apply elem_of_cons in He1 as [->|He1];
            [repeat (apply elem_of_cons in He2 as [->|He2];
                     [intros Heq; cbn [path snd] in Heq;
                      apply PLMN_path_eq in Heq as [-> Hr]; [|reflexivity];
                      first [discriminate Hr | done] |]);
             by apply elem_of_nil in He2 |]).
    by apply elem_of_nil in He1.
  - intros He2. apply PLMN_path_shape in He1 as [Hkey [r Hpath]].
    set (PRE := "Device.Services.FAPService.1.CellConfig.LTE.EPC.PLMNList.") in Hpath.
    assert (Hall : Forall (λ e : ParameterName * TrParam,
                             (startswith (path e.2) PRE = false ∨ path e.2 = PRE)
                             ∧ ((ParameterName_code e.1).1 < 29)%nat)
                          PARAMETERS_display) by compute_done.
    rewrite Forall_forall in Hall. destruct (Hall _ He2) as [Hshape Hcode].
    split.
    + intros Heq. rewrite Hpath in Heq. destruct Hshape as [Hno|Hpre].
      * assert (Hyes : startswith (path e2.2) PRE = true)
          by (apply startswith_app; eauto).
        congruence.
      * rewrite Hpre in Heq. rewrite <- (string_app_nil_r PRE) in Heq at 2.
        apply (inj (String.app _)) in Heq.
        destruct (pretty i); discriminate Heq.
    + intros Heq. rewrite Heq in Hkey. lia.
Qed.

Lemma PLMN_paths_never_collide_witness :
  "Device.Services.FAPService.1.CellConfig.LTE.EPC.PLMNList.12."
  ≠ "Device.Services.FAPService.1.CellConfig.LTE.EPC.PLMNList."
  ∧ PLMN_N 12 ≠ PLMN.
Proof.
  apply (PLMN_paths_never_collide 12 0
           (PLMN_N 12, mkTrParam "Device.Services.FAPService.1.CellConfig.LTE.EPC.PLMNList.12."
                                 true OBJECT false)
           (PLMN, mkTrParam "Device.Services.FAPService.1.CellConfig.LTE.EPC.PLMNList."
                            true OBJECT false)).
  - compute_done.
  - compute_done.
Defined.

(** ** Parameter names and transforms *)

Lemma dict_keys_of_items_snoc `{EqDecision K} {V} (items : list (K * V)) (kv : K * V) :
  dict_keys_of_items (items ++ [kv])
  = if decide (kv.1 ∈ dict_keys_of_items items)
    then dict_keys_of_items items
    else (dict_keys_of_items items ++ [kv.1])%list.
Proof. unfold dict_keys_of_items. by rewrite foldl_app. Qed.

Lemma dict_keys_of_items_spec `{EqDecision K} {V} (items : list (K * V)) :
  NoDup (dict_keys_of_items items)
  ∧ ∀ k, k ∈ dict_keys_of_items items ↔ k ∈ items.*1.
Proof.
  induction items as [|kv items [IHnd IHin]] using rev_ind.
  - split; [constructor | done].
  - rewrite dict_keys_of_items_snoc. case_decide as Hin; split.
    + done.
    + intros k. rewrite fmap_app, elem_of_app, IHin. simpl.
      rewrite list_elem_of_singleton. apply IHin in Hin. naive_solver.
    + apply NoDup_app. split; [done|]. split; [|apply NoDup_singleton].
      intros k Hk ->%list_elem_of_singleton. done.
    + intros k. rewrite fmap_app, !elem_of_app, IHin. simpl. done.
Qed.

Lemma dict_of_items_is_Some `{Countable K} {V} (items : list (K * V)) (k : K) :
  is_Some (dict_of_items items !! k) ↔ k ∈ items.*1.
Proof.
  induction items as [|[k' v] items IH] using rev_ind.
  - unfold dict_of_items; simpl. rewrite lookup_empty, elem_of_nil. split; [by intros []|done].
  - rewrite dict_of_items_snoc, lookup_insert_is_Some', fmap_app, elem_of_app, IH.
    simpl. rewrite list_elem_of_singleton. naive_solver.
Qed.

Lemma PARAMETERS_keys_spec (k : ParameterName) :
  k ∈ PARAMETERS_keys ↔ is_Some (get_parameter k).
Proof.
  unfold PARAMETERS_keys.
  rewrite (proj2 (dict_keys_of_items_spec PARAMETERS_assignments)).
  symmetry. apply get_parameter_is_Some.
Qed.

(** X15: [get_parameter_names()], whatever the text of the parameter names.
    A name is returned exactly when it has a descriptor, its text does not
    start with [PLMN] and its text is neither that of [DEVICE] nor that of
    [FAP_SERVICE].  So [DEVICE], [FAP_SERVICE] and the load parameter are
    never returned, every returned name has a descriptor, and no name is
    returned twice. *)
Theorem get_parameter_names_spec (ParameterName_str : ParameterName → string) :
  let names := get_parameter_names ParameterName_str in
  (∀ k, k ∈ names
        ↔ is_Some (get_parameter k)
          ∧ startswith (ParameterName_str k) "PLMN" = false
          ∧ ParameterName_str k ≠ ParameterName_str DEVICE
          ∧ ParameterName_str k ≠ ParameterName_str FAP_SERVICE)
  ∧ (DEVICE ∉ names) ∧ (FAP_SERVICE ∉ names)
  ∧ (∀ k, k ∈ get_load_parameters → k ∉ names)
  ∧ NoDup names.
Proof.
  cbv zeta.
  assert (Hspec : ∀ k, k ∈ get_parameter_names ParameterName_str
                       ↔ is_Some (get_parameter k)
                         ∧ startswith (ParameterName_str k) "PLMN" = false
                         ∧ ParameterName_str k ≠ ParameterName_str DEVICE
                         ∧ ParameterName_str k ≠ ParameterName_str FAP_SERVICE).
  { intros k. unfold get_parameter_names; cbv zeta.
    rewrite list_elem_of_filter, PARAMETERS_keys_spec, negb_true_iff.
    rewrite not_elem_of_cons, not_elem_of_cons, elem_of_nil. tauto. }
  split; [exact Hspec|].
  split; [rewrite Hspec; intros (_ & _ & Hd & _); by apply Hd|].
  split; [rewrite Hspec; intros (_ & _ & _ & Hf); by apply Hf|].
  split.
  - intros k Hk. apply list_elem_of_singleton in Hk as ->.
    rewrite Hspec. intros (_ & _ & Hd & _). by apply Hd.
  - unfold get_parameter_names; cbv zeta. apply NoDup_filter.
    apply (dict_keys_of_items_spec PARAMETERS_assignments).
Qed.

(** X16: the transform tables.  An eNodeB transform is registered for the
    two bandwidth keys only and a magma transform for the two GPS keys only;
    every key with a transform has a descriptor, no key has both, and
    [transform_for_enb] applies [bandwidth] to the bandwidth keys and hands
    every other value through unchanged. *)
Theorem transforms_only_on_catalog_keys
    (bandwidth gps_tr181 : pyval → pyval) (k : ParameterName) :
  let enb := _get_enb_transforms bandwidth in
  let magma := _get_magma_transforms gps_tr181 in
  (is_Some (enb !! k) ↔ k = DL_BANDWIDTH ∨ k = UL_BANDWIDTH)
  ∧ (is_Some (magma !! k) ↔ k = GPS_LAT ∨ k = GPS_LONG)
  ∧ (is_Some (enb !! k) ∨ is_Some (magma !! k) → is_Some (get_parameter k))
  ∧ ¬ (is_Some (enb !! k) ∧ is_Some (magma !! k))
  ∧ (∀ v, transform_for_enb enb k v
          = if decide (k = DL_BANDWIDTH ∨ k = UL_BANDWIDTH) then bandwidth v else v).
Proof.
  cbv zeta.
  assert (Henb : is_Some (_get_enb_transforms bandwidth !! k)
                 ↔ k = DL_BANDWIDTH ∨ k = UL_BANDWIDTH).
  { unfold _get_enb_transforms, TRANSFORMS_FOR_ENB. rewrite dict_of_items_is_Some.
    simpl. rewrite !elem_of_cons, elem_of_nil. naive_solver. }
  assert (Hmagma : is_Some (_get_magma_transforms gps_tr181 !! k)
                   ↔ k = GPS_LAT ∨ k = GPS_LONG).
  { unfold _get_magma_transforms, TRANSFORMS_FOR_MAGMA. rewrite dict_of_items_is_Some.
    simpl. rewrite !elem_of_cons, elem_of_nil. naive_solver. }
  split; [exact Henb|]. split; [exact Hmagma|]. split; [|split].
  - rewrite Henb, Hmagma.
    intros [[->| ->]|[->| ->]]; eexists; vm_compute; reflexivity.
  - rewrite Henb, Hmagma. intros [[->| ->] [?|?]]; discriminate.
  - intros v. unfold transform_for_enb. case_decide as Hk.
    + assert (Hb : _get_enb_transforms bandwidth !! k = Some bandwidth).
      { unfold _get_enb_transforms, TRANSFORMS_FOR_ENB.
        apply dict_of_items_lookup; [compute_done|].
        destruct Hk as [->| ->]; set_solver. }
      by rewrite Hb.
    + destruct (_get_enb_transforms bandwidth !! k) as [f|] eqn:Hf; [|done].
      destruct Hk. apply Henb. by exists f.
Qed.

(** * Further properties of the post-processor *)

(** X17: [postprocess] erases exactly what the configuration held for
    [CELL_BARRED] and [ADMIN_STATE]: two configurations are post-processed
    to the same one if and only if they agree on every other key. *)
Theorem postprocess_eq_iff (cfg1 cfg2 : EnodebConfiguration) :
  postprocess cfg1 = postprocess cfg2
  ↔ ∀ k, k ≠ CELL_BARRED → k ≠ ADMIN_STATE → cfg1 !! k = cfg2 !! k.
Proof.
  unfold postprocess, set_parameter, EnodebConfiguration in *. split.
  - intros Heq k Hb Ha.
    assert (Hk : (<[ADMIN_STATE:=VBool true]> (<[CELL_BARRED:=VBool true]> cfg1)) !! k
                 = (<[ADMIN_STATE:=VBool true]> (<[CELL_BARRED:=VBool true]> cfg2)) !! k)
      by (by rewrite Heq).
    by rewrite !lookup_insert_ne in Hk.
  - intros Hagree. apply map_eq. intros k.
    destruct (decide (k = ADMIN_STATE)) as [->|Ha]; [by rewrite !lookup_insert_eq|].
    rewrite !(lookup_insert_ne _ ADMIN_STATE) by done.
    destruct (decide (k = CELL_BARRED)) as [->|Hb]; [by rewrite !lookup_insert_eq|].
    rewrite !lookup_insert_ne by done. by apply Hagree.
Qed.

(** X18: [postprocess] and an upstream [set_parameter].  A value set for
    [CELL_BARRED] or [ADMIN_STATE] before post-processing is lost; a value
    set for any other key can as well be set afterwards. *)
Theorem postprocess_set_parameter
    (cfg : EnodebConfiguration) (k : ParameterName) (v : pyval) :
  (k = CELL_BARRED ∨ k = ADMIN_STATE →
     postprocess (set_parameter cfg k v) = postprocess cfg)
  ∧ (k ≠ CELL_BARRED → k ≠ ADMIN_STATE →
     postprocess (set_parameter cfg k v) = set_parameter (postprocess cfg) k v).
Proof.
  unfold postprocess, set_parameter, EnodebConfiguration in *. split.
  - intros [->| ->].
    + by rewrite insert_insert_eq.
    + rewrite (insert_insert_ne _ CELL_BARRED ADMIN_STATE) by discriminate.
      by rewrite insert_insert_eq.
  - intros Hb Ha.
    rewrite (insert_insert_ne _ CELL_BARRED k) by done.
    by rewrite (insert_insert_ne _ ADMIN_STATE k) by done.
Qed.

Lemma postprocess_set_parameter_witness :
  postprocess (set_parameter ∅ ADMIN_STATE (VBool false)) = postprocess ∅
  ∧ postprocess (set_parameter ∅ TAC (VInt 1)) = set_parameter (postprocess ∅) TAC (VInt 1).
Proof.
  split.
  - apply (postprocess_set_parameter ∅ ADMIN_STATE (VBool false)). by right.
  - apply (postprocess_set_parameter ∅ TAC (VInt 1)); discriminate.
Defined.

(** X19: [postprocess] writes only keys the Cavium catalog defines, with
    values of the descriptor's type: wherever the post-processed
    configuration differs from the given one, the key has a [BOOLEAN]
    descriptor and the new value is [True].  The keys of the result are
    those of the given configuration and the two forced keys. *)
Theorem postprocess_writes_catalog_booleans (cfg : EnodebConfiguration) :
  (∀ k, postprocess cfg !! k ≠ cfg !! k →
        postprocess cfg !! k = Some (VBool true)
        ∧ ∃ d, get_parameter k = Some d ∧ wireType d = BOOLEAN)
  ∧ dom (postprocess cfg) = dom cfg ∪ {[CELL_BARRED; ADMIN_STATE]}.
Proof.
  unfold postprocess, set_parameter, EnodebConfiguration in *. split.
  - intros k Hk.
    destruct (decide (k = ADMIN_STATE)) as [->|Ha].
    { rewrite lookup_insert_eq. split; [done|]. eexists. split; [vm_compute; reflexivity|done]. }
    rewrite lookup_insert_ne in Hk |- * by done.
    destruct (decide (k = CELL_BARRED)) as [->|Hb].
    { rewrite lookup_insert_eq. split; [done|]. eexists. split; [vm_compute; reflexivity|done]. }
    rewrite lookup_insert_ne in Hk by done. done.
  - rewrite !dom_insert_L. set_solver.
Qed.

Lemma postprocess_writes_catalog_booleans_witness :
  postprocess (dict_of_items [(ADMIN_STATE, VBool false)]) !! ADMIN_STATE
  = Some (VBool true).
Proof.
  apply (postprocess_writes_catalog_booleans (dict_of_items [(ADMIN_STATE, VBool false)])).
  vm_compute. discriminate.
Defined.

(** * Concrete instances of the equivalences above *)

Lemma state_map_reachable_from_disconnected_witness :
  rtc (state_map_step (state_map (_init_state_map (mkCaviumHandler ∅ ErrorState))))
      disconnected_state_name "wait_set_params"
  ∧ ¬ rtc (state_map_step (state_map (_init_state_map (mkCaviumHandler ∅ ErrorState))))
          disconnected_state_name "disable_admin".
Proof.
  split.
  - apply (state_map_reachable_from_disconnected (mkCaviumHandler ∅ ErrorState)).
    compute_done.
  - intros Hreach.
    apply (state_map_reachable_from_disconnected (mkCaviumHandler ∅ ErrorState)) in Hreach.
    revert Hreach. compute_done.
Defined.

Lemma get_numbered_param_names_exact_witness :
  get_numbered_param_names !! PLMN_N 6
  = Some [PLMN_N_CELL_RESERVED 6; PLMN_N_ENABLE 6; PLMN_N_PRIMARY 6; PLMN_N_PLMNID 6]
  ∧ get_numbered_param_names !! PLMN_N 7 = None
  ∧ get_numbered_param_names !! PLMN_N 0 = None.
Proof.
  split; [|split].
  - apply get_numbered_param_names_exact. exists 6.
    split; [unfold get_num_plmns, NUM_PLMNS_IN_CONFIG; lia | done].
  - apply eq_None_not_Some. intros [cs Hcs].
    apply get_numbered_param_names_exact in Hcs as (i & Hi & [= <-] & _).
    unfold get_num_plmns, NUM_PLMNS_IN_CONFIG in Hi. lia.
  - apply eq_None_not_Some. intros [cs Hcs].
    apply get_numbered_param_names_exact in Hcs as (i & Hi & [= <-] & _).
    lia.
Defined.

Lemma get_parameter_names_spec_witness :
  let ParameterName_str := λ k,
    match k with
    | DEVICE => "Device" | FAP_SERVICE => "FAPService"
    | PLMN => "PLMN" | PLMN_N i => "PLMN " +:+ pretty i
    | ADMIN_STATE => "Admin state"
    | _ => "Other"
    end in
  ADMIN_STATE ∈ get_parameter_names ParameterName_str
  ∧ PLMN_N 1 ∉ get_parameter_names ParameterName_str
  ∧ DEVICE ∉ get_parameter_names ParameterName_str.
Proof.
  cbv zeta. split; [|split].
  - apply get_parameter_names_spec. split; [|done].
    eexists. vm_compute. reflexivity.
  - intros Hin. apply get_parameter_names_spec in Hin as (_ & Hpre & _).
    revert Hpre. vm_compute. discriminate.
  - apply (proj1 (proj2 (get_parameter_names_spec _))).
Defined.

Lemma transforms_only_on_catalog_keys_witness :
  is_Some (get_parameter DL_BANDWIDTH)
  ∧ transform_for_enb (_get_enb_transforms (λ _, VStr "n100")) DL_BANDWIDTH (VInt 20)
    = VStr "n100"
  ∧ transform_for_enb (_get_enb_transforms (λ _, VStr "n100")) ADMIN_STATE (VBool false)
    = VBool false.
Proof.
  split; [|split].
  - apply (transforms_only_on_catalog_keys (λ _, VStr "n100") (λ v, v) DL_BANDWIDTH).
    left. apply (transforms_only_on_catalog_keys (λ _, VStr "n100") (λ v, v) DL_BANDWIDTH).
    by left.
  - by rewrite (proj2 (proj2 (proj2 (proj2
         (transforms_only_on_catalog_keys (λ _, VStr "n100") (λ v, v) DL_BANDWIDTH))))).
  - by rewrite (proj2 (proj2 (proj2 (proj2
         (transforms_only_on_catalog_keys (λ _, VStr "n100") (λ v, v) ADMIN_STATE))))).
Defined.

Lemma postprocess_eq_iff_witness :
  postprocess (set_parameter (set_parameter ∅ TAC (VInt 1)) ADMIN_STATE (VBool false))
  = postprocess (set_parameter (set_parameter ∅ CELL_BARRED (VBool false)) TAC (VInt 1))
  ∧ postprocess (set_parameter ∅ TAC (VInt 1)) ≠ postprocess (set_parameter ∅ TAC (VInt 2)).
Proof.
  split.
  - apply postprocess_eq_iff. intros k Hb Ha.
    unfold set_parameter, EnodebConfiguration in *.
    rewrite (lookup_insert_ne _ ADMIN_STATE k) by done.
    destruct (decide (k = TAC)) as [->|Ht]; [by rewrite !lookup_insert_eq|].
    rewrite !(lookup_insert_ne _ TAC k) by done.
    by rewrite (lookup_insert_ne _ CELL_BARRED k) by done.
  - intros Heq.
    pose proof (proj1 (postprocess_eq_iff _ _) Heq TAC) as Htac.
    specialize (Htac ltac:(discriminate) ltac:(discriminate)).
    unfold set_parameter, EnodebConfiguration in Htac.
    rewrite !lookup_insert_eq in Htac. discriminate.
Defined.

(** * The admin-state descriptor and the disable request *)




